(** * Trading simulator: order-book aggregation and trade-cost model

    A shallow embedding of the numeric core of the dashboard:

    - [OrderbookVisualization.tsx]: the effect that truncates each side of
      the book, accumulates running totals and normalises them to
      percentages, and [calculateSpread];
    - the earlier revision of that component, which renders the spread
      with a textual placeholder;
    - [ParameterControls.tsx]: [handleSubmit], the validation of the form;
    - [page.tsx]: [handleSimulation], the local cost model, and the
      properties it hands to the metrics panel;
    - the depth chart of the component, the aggregation of its earlier
      revision, [handleSimulation] of the earlier page and
      [MetricsDisplay.tsx].

    Numbers.  A JavaScript [number] is modelled by an exact rational
    ([Q]); equality of numbers is [Qeq] ([==]).  The code computes on
    IEEE 754 doubles, so the properties are written to hold there too:
    sums, differences and quotients are stated in the order in which the
    code takes them, identities that only exact arithmetic has are left
    out, and a bound that overflow or underflow would break carries the
    range of its inputs as a hypothesis.  The module [Binary64] has the
    same lines on doubles; it is where the statements that rounding
    refutes are evaluated.  [NaN] appears in the rational model only as
    the result of [parseFloat], which is an [option Q] with [None] for
    [NaN].  A value that may be [undefined] or [null] is an [option]. *)

From Stdlib Require Import QArith Qminmax Lqa ZArith Lia Ascii String List Bool.
From Stdlib Require Import Floats Uint63.
Import ListNotations.

Set Warnings "-register-all,-inexact-float".

Open Scope string_scope.
Open Scope Q_scope.

(** ** JavaScript operators on numbers and nullable values *)

(** [a ?? d] and, for a missing object, [o?.f ?? d]. *)
Definition nullish {A : Type} (o : option A) (d : A) : A :=
  match o with
  | Some a => a
  | None => d
  end.

(** [o?.f]: the field of a possibly missing object. *)
Definition optField {A B : Type} (o : option A) (f : A -> option B) : option B :=
  match o with
  | Some a => f a
  | None => None
  end.

(** [x > y], [x < y], [x <= y] and [x !== y] on numbers. *)
Definition gtb (x y : Q) : bool := negb (Qle_bool x y).
Definition ltb (x y : Q) : bool := negb (Qle_bool y x).
Definition leb (x y : Q) : bool := Qle_bool x y.
Definition neqb (x y : Q) : bool := negb (Qeq_bool x y).

(** ** The order book ([OrderbookVisualization.tsx]) *)

Module Orderbook.

(** A level as it arrives from the feed: the entry itself and each of its
    fields may be missing. *)
Record FeedEntry := mkFeedEntry {
  feed_price : option Q;
  feed_size : option Q;
  feed_total : option Q;
  feed_percentage : option Q
}.

(** [interface OrderbookEntry]. *)
Record OrderbookEntry := mkEntry {
  price : Q;
  size : Q;
  total : Q;
  percentage : Q
}.

(** The [data] property: [bids] and [asks] may be missing, the timestamp
    is in epoch milliseconds. *)
Record FeedData := mkFeedData {
  feed_bids : option (list (option FeedEntry));
  feed_asks : option (list (option FeedEntry));
  feed_timestamp : Z
}.

(** [interface OrderbookData], the [processedData] state. *)
Record OrderbookData := mkData {
  bids : list OrderbookEntry;
  asks : list OrderbookEntry;
  timestamp : Z
}.

Definition defaultMaxDepth : nat := 10.

(** [safeEntry] inside [processData]: missing numbers default to 0. *)
Definition safeEntry (entry : option FeedEntry) : OrderbookEntry :=
  {| price := nullish (optField entry feed_price) 0;
     size := nullish (optField entry feed_size) 0;
     total := 0;
     percentage := 0 |}.

(** The body of [entries.map] in [processData], with the captured
    variable [runningTotal] passed along. *)
Fixpoint processFrom (runningTotal : Q) (entries : list (option FeedEntry))
  : list OrderbookEntry :=
  match entries with
  | [] => []
  | entry :: rest =>
      let s := safeEntry entry in
      let runningTotal' := runningTotal + size s in
      {| price := price s;
         size := size s;
         total := runningTotal';
         percentage := 0 |} :: processFrom runningTotal' rest
  end.

(** [processData]: [let runningTotal = 0; return entries.map(...)]. *)
Definition processData (entries : list (option FeedEntry)) : list OrderbookEntry :=
  processFrom 0 entries.

(** [(xs || []).slice(0, maxDepth)] for a non-negative integer depth. *)
Definition slice0 {A : Type} (xs : option (list A)) (maxDepth : nat) : list A :=
  firstn maxDepth (nullish xs []).

(** [entries.length > 0 ? entries[entries.length - 1].total : 0]. *)
Definition lastTotal (entries : list OrderbookEntry) : Q :=
  last (map total entries) 0.

(** [maxTotal]: [Math.max] of the two last running totals. *)
Definition maxTotalOf (processedBids processedAsks : list OrderbookEntry) : Q :=
  Qmax (lastTotal processedBids) (lastTotal processedAsks).

(** [calculatePercentages], closed over [maxTotal]. *)
Definition calculatePercentages (maxTotal : Q) (entries : list OrderbookEntry)
  : list OrderbookEntry :=
  map (fun entry =>
         {| price := price entry;
            size := size entry;
            total := total entry;
            percentage :=
              if gtb maxTotal 0 then (total entry / maxTotal) * 100 else 0 |})
      entries.

(** [data.timestamp || Date.now()]: 0 is falsy. *)
Definition orNow (t now : Z) : Z := if (t =? 0)%Z then now else t.

(** The effect that recomputes [processedData] from [data] and
    [maxDepth]; [now] is the value [Date.now()] would return. *)
Definition aggregate (now : Z) (data : FeedData) (maxDepth : nat) : OrderbookData :=
  let processedBids := processData (slice0 (feed_bids data) maxDepth) in
  let processedAsks := processData (slice0 (feed_asks data) maxDepth) in
  let maxTotal := maxTotalOf processedBids processedAsks in
  {| bids := calculatePercentages maxTotal processedBids;
     asks := calculatePercentages maxTotal processedAsks;
     timestamp := orNow (feed_timestamp data) now |}.

(** [getFirstAskPrice] and [getFirstBidPrice]: the price of the first
    entry, with the fallback 0 for an empty side. *)
Definition getFirstAskPrice (processedData : OrderbookData) : Q :=
  match asks processedData with
  | [] => 0
  | e :: _ => price e
  end.

Definition getFirstBidPrice (processedData : OrderbookData) : Q :=
  match bids processedData with
  | [] => 0
  | e :: _ => price e
  end.

Record Spread := mkSpread {
  absolute : Q;
  spread_percentage : Q
}.

(** [calculateSpread]. *)
Definition calculateSpread (processedData : OrderbookData) : Spread :=
  let askPrice := getFirstAskPrice processedData in
  let bidPrice := getFirstBidPrice processedData in
  {| absolute := askPrice - bidPrice;
     spread_percentage :=
       if neqb bidPrice 0 then ((askPrice - bidPrice) / bidPrice) * 100 else 0 |}.

(** What the spread indicator renders: a number printed with
    [toFixed(digits)], or a literal text. *)
Inductive Cell :=
| Fixed (digits : nat) (value : Q)
| Text (s : string).

(** The spread indicator: [(spread?.absolute ?? 0).toFixed(2)] and
    [(spread?.percentage ?? 0).toFixed(3)]. *)
Definition spreadIndicator (processedData : OrderbookData) : Cell * Cell :=
  let spread := calculateSpread processedData in
  (Fixed 2 (absolute spread), Fixed 3 (spread_percentage spread)).

(** An aggregated book, read back as input data. *)
Definition asFeedEntry (e : OrderbookEntry) : option FeedEntry :=
  Some {| feed_price := Some (price e);
          feed_size := Some (size e);
          feed_total := Some (total e);
          feed_percentage := Some (percentage e) |}.

Definition asFeed (d : OrderbookData) : FeedData :=
  {| feed_bids := Some (map asFeedEntry (bids d));
     feed_asks := Some (map asFeedEntry (asks d));
     feed_timestamp := timestamp d |}.

(** *** Vocabulary of the properties *)

(** The size and the price that the feed gives for a level: the number
    in the field, and 0 for a missing level or a missing number.  They are
    written on the input alone, so that they say what the aggregation has
    to read. *)
Definition feedSize (entry : option FeedEntry) : Q :=
  match entry with
  | Some {| feed_size := Some s |} => s
  | _ => 0
  end.

Definition feedPrice (entry : option FeedEntry) : Q :=
  match entry with
  | Some {| feed_price := Some p |} => p
  | _ => 0
  end.

Definition sizesOf (entries : list (option FeedEntry)) : list Q :=
  map feedSize entries.

Definition pricesOf (entries : list (option FeedEntry)) : list Q :=
  map feedPrice entries.

Definition nonNegative (entries : list (option FeedEntry)) : Prop :=
  Forall (fun x => 0 <= x) (sizesOf entries).

Definition sumQ (l : list Q) : Q := fold_right Qplus 0 l.

(** The sum taken the way the loop takes it: from 0, left to right. *)
Definition sumInOrder (l : list Q) : Q := fold_left Qplus l 0.

(** The sizes of a side add up to at most [sumBound], far below the
    largest double: no running total of such a side overflows. *)
Definition sumBound : Q := 1e300.

Definition summable (entries : list (option FeedEntry)) : Prop :=
  sumQ (sizesOf entries) <= sumBound.

(** [totals[i-1]], with [totals[-1] = 0]. *)
Definition previous (totals : list Q) (i : nat) : Q :=
  match i with
  | O => 0
  | S j => nth j totals 0
  end.

Definition nonDecreasing (l : list Q) : Prop :=
  forall i j, (i <= j < length l)%nat -> nth i l 0 <= nth j l 0.

(** A processed side [side] is the running total of the first
    [maxDepth] entries of [input]. *)
Definition truncatedRunningTotals (maxDepth : nat)
  (input : option (list (option FeedEntry))) (side : list OrderbookEntry) : Prop :=
  let window := firstn maxDepth (nullish input []) in
  (length side <= maxDepth)%nat /\
  map price side = pricesOf window /\
  map size side = sizesOf window /\
  (forall i, (i < length side)%nat ->
     nth i (map total side) 0
     = previous (map total side) i + nth i (map size side) 0) /\
  (nonNegative window -> nonDecreasing (map total side)) /\
  lastTotal side = sumInOrder (sizesOf window).

(** The part of a book that a depth of [maxDepth] leaves visible. *)
Definition visibleWindow (data : FeedData) (maxDepth : nat) : FeedData :=
  {| feed_bids := Some (slice0 (feed_bids data) maxDepth);
     feed_asks := Some (slice0 (feed_asks data) maxDepth);
     feed_timestamp := feed_timestamp data |}.

Definition entriesOf (d : OrderbookData) : list OrderbookEntry :=
  bids d ++ asks d.

(** The normalisation constant, read off an aggregated book. *)
Definition maxCumulative (d : OrderbookData) : Q :=
  maxTotalOf (bids d) (asks d).

Definition unavailable (c : Cell) : bool :=
  match c with
  | Text _ => true
  | Fixed _ _ => false
  end.

(** The wording of the specification for a one-sided book: the spread
    is shown as unavailable. *)
Definition spreadUnavailableWhenOneSided (d : OrderbookData) : Prop :=
  asks d = [] \/ bids d = [] ->
  unavailable (fst (spreadIndicator d)) = true /\
  unavailable (snd (spreadIndicator d)) = true.

(** *** Books used in the examples *)

Definition level (p s : Q) : option FeedEntry :=
  Some {| feed_price := Some p; feed_size := Some s;
          feed_total := None; feed_percentage := None |}.

(** Two bids and three asks, one of them a missing entry. *)
Definition exampleBook : FeedData :=
  {| feed_bids := Some [level 50000 1.5; level 49990 2];
     feed_asks := Some [level 50010 1; None; level 50030 0.5];
     feed_timestamp := 1635739200000 |}.

(** A book with bids only. *)
Definition oneSidedBook : FeedData :=
  {| feed_bids := Some [level 50000 2];
     feed_asks := Some [];
     feed_timestamp := 1635739200000 |}.

End Orderbook.

(** ** The earlier revision of the component *)

Module Legacy.
Import Orderbook.

(** Truthiness of a number and [x || d]. *)
Definition truthy (x : Q) : bool := neqb x 0.
Definition orNum (x d : Q) : Q := if truthy x then x else d.

(** [asks[0] && bids[0] ? (asks[0].price - bids[0].price).toFixed(2) : "--"]. *)
Definition spreadAbsoluteCell (processedData : OrderbookData) : Cell :=
  match hd_error (asks processedData), hd_error (bids processedData) with
  | Some a, Some b => Fixed 2 (price a - price b)
  | _, _ => Text "--"
  end.

(** [asks?.[0]?.price && bids?.[0]?.price
     ? (((asks[0].price - bids[0].price) / (bids[0].price || 1)) * 100).toFixed(3)
     : "--"]. *)
Definition spreadPercentCell (processedData : OrderbookData) : Cell :=
  match hd_error (asks processedData), hd_error (bids processedData) with
  | Some a, Some b =>
      if truthy (price a) && truthy (price b)
      then Fixed 3 (((price a - price b) / orNum (price b) 1) * 100)
      else Text "--"
  | _, _ => Text "--"
  end.

Definition spreadIndicator (processedData : OrderbookData) : Cell * Cell :=
  (spreadAbsoluteCell processedData, spreadPercentCell processedData).

End Legacy.

(** ** The parameter form ([ParameterControls.tsx]) *)

(** [interface SimulationParameters]. *)
Record SimulationParameters := mkParams {
  orderSize : Q;
  volatility : Q;
  feeTier : string
}.

Module ParameterControls.

(** The component state: the order size is kept as the text of the input. *)
Record State := mkState {
  st_orderSize : string;
  st_volatility : Q;
  st_feeTier : string;
  st_error : string
}.

Definition initialState : State :=
  {| st_orderSize := "1"; st_volatility := 50; st_feeTier := "standard";
     st_error := EmptyString |}.

(** [!s] for a string. *)
Definition falsy (s : string) : bool :=
  match s with
  | EmptyString => true
  | String _ _ => false
  end.

Section WithParseFloat.

(** The built-in [parseFloat]; [None] is [NaN]. *)
Variable parseFloat : string -> option Q.

(** [handleSubmit]: the new state and the argument passed to [onSubmit],
    if it is called.  [setError] keeps the other state variables. *)
Definition setError (st : State) (msg : string) : State :=
  {| st_orderSize := st_orderSize st; st_volatility := st_volatility st;
     st_feeTier := st_feeTier st; st_error := msg |}.

Definition handleSubmit (st : State) : State * option SimulationParameters :=
  let st := setError st EmptyString in
  match parseFloat (st_orderSize st) with
  | None => (setError st "Order size must be a positive number", None)
  | Some parsedOrderSize =>
      if leb parsedOrderSize 0 then
        (setError st "Order size must be a positive number", None)
      else if ltb (st_volatility st) 0 || gtb (st_volatility st) 100 then
        (setError st "Volatility must be between 0 and 100", None)
      else if falsy (st_feeTier st) then
        (setError st "Please select a fee tier", None)
      else
        (st, Some {| orderSize := parsedOrderSize;
                     volatility := st_volatility st;
                     feeTier := st_feeTier st |})
  end.

End WithParseFloat.

(** An instance of [parseFloat] for plain decimal text: leading blanks,
    an optional sign, digits and an optional fraction; [None] when no
    digit is found.  Exponents and [Infinity] are not read. *)
Definition digitOf (c : ascii) : option Z :=
  let n := nat_of_ascii c in
  if ((48 <=? n) && (n <=? 57))%nat then Some (Z.of_nat (n - 48)) else None.

Fixpoint readDigits (s : string) (acc : Z) (count : nat) : Z * nat * string :=
  match s with
  | String c rest =>
      match digitOf c with
      | Some d => readDigits rest (10 * acc + d)%Z (S count)
      | None => (acc, count, s)
      end
  | EmptyString => (acc, count, s)
  end.

Definition readUnsigned (s : string) : option Q :=
  let '(ip, n1, rest) := readDigits s 0%Z 0%nat in
  match rest with
  | String "."%char rest' =>
      let '(fp, n2, _) := readDigits rest' ip 0%nat in
      if (n1 + n2 =? 0)%nat then None
      else Some (fp # Z.to_pos (10 ^ Z.of_nat n2))
  | _ => if (n1 =? 0)%nat then None else Some (inject_Z ip)
  end.

Fixpoint skipBlanks (s : string) : string :=
  match s with
  | String " "%char rest => skipBlanks rest
  | _ => s
  end.

Definition parseDecimal (s : string) : option Q :=
  match skipBlanks s with
  | String "-"%char rest => option_map Qopp (readUnsigned rest)
  | String "+"%char rest => readUnsigned rest
  | rest => readUnsigned rest
  end.

End ParameterControls.

(** ** The dashboard ([page.tsx]) *)

Module Dashboard.

(** The values the result object is built from: numbers and nested
    objects, an object being its list of properties. *)
Inductive JSValue :=
| JNum (x : Q)
| JObj (fields : list (string * JSValue)).

Fixpoint lookup (name : string) (fields : list (string * JSValue)) : option JSValue :=
  match fields with
  | [] => None
  | (k, v) :: rest => if String.eqb k name then Some v else lookup name rest
  end.

(** [v.name]; [None] is [undefined]. *)
Definition getField (name : string) (v : JSValue) : option JSValue :=
  match v with
  | JObj fields => lookup name fields
  | JNum _ => None
  end.

(** What one run reads from outside: the outcome of the health check,
    the two readings of [performance.now()] and the two draws of
    [Math.random()]. *)
Record Env := mkEnv {
  healthOk : bool;
  startTime : Q;
  random1 : Q;
  random2 : Q;
  endTime : Q
}.

Definition slippage (parameters : SimulationParameters) : Q :=
  (orderSize parameters * volatility parameters) / 10000.

(** [let feeRate = 0.001; if ... else if ... else if ...]. *)
Definition feeRate (parameters : SimulationParameters) : Q :=
  let feeRate := 0.001 in
  if String.eqb (feeTier parameters) "vip" then 0.0002
  else if String.eqb (feeTier parameters) "standard" then 0.0005
  else if String.eqb (feeTier parameters) "basic" then 0.001
  else feeRate.

Definition fees (parameters : SimulationParameters) : Q :=
  orderSize parameters * feeRate parameters.

Definition marketImpact (parameters : SimulationParameters) : Q :=
  (orderSize parameters * volatility parameters) / 5000.

Definition takerProportion (parameters : SimulationParameters) : Q :=
  Qmin 0.9 (volatility parameters / 100).

Definition makerProportion (parameters : SimulationParameters) : Q :=
  1 - takerProportion parameters.

Definition processingTime (env : Env) : Q := random1 env * 10 + 5.
Definition uiUpdateTime (env : Env) : Q := random2 env * 5 + 3.
Definition totalTime (env : Env) : Q := endTime env - startTime env.

(** The object literal [results]. *)
Definition results (env : Env) (parameters : SimulationParameters) : JSValue :=
  JObj
    [ ("slippage", JNum (slippage parameters));
      ("fees", JNum (fees parameters));
      ("marketImpact", JNum (marketImpact parameters));
      ("makerTakerProportion",
        JObj [ ("maker", JNum (makerProportion parameters));
               ("taker", JNum (takerProportion parameters)) ]);
      ("performanceMetrics",
        JObj [ ("processingLatency", JNum (processingTime env));
               ("uiUpdateLatency", JNum (uiUpdateTime env));
               ("endToEndLatency", JNum (totalTime env)) ]) ].

(** The state variables of the page that a simulation writes. *)
Record State := mkState {
  simulationResults : JSValue;
  isLoading : bool;
  isApiAvailable : bool
}.

Definition initialState : State :=
  {| simulationResults :=
       JObj
         [ ("slippage", JNum 0);
           ("fees", JNum 0);
           ("marketImpact", JNum 0);
           ("makerTakerProportion", JObj [ ("maker", JNum 0); ("taker", JNum 0) ]);
           ("performanceMetrics",
             JObj [ ("processingLatency", JNum 0);
                    ("uiUpdateLatency", JNum 0);
                    ("endToEndLatency", JNum 0) ]) ];
     isLoading := false;
     isApiAvailable := false |}.

(** [handleSimulation].  Nothing in the [try] block can throw on numbers
    and a string, so the fallback of the [catch] block is never taken;
    the [finally] block resets [isLoading]. *)
Definition handleSimulation (env : Env) (parameters : SimulationParameters)
  (st : State) : State :=
  {| simulationResults := results env parameters;
     isLoading := false;
     isApiAvailable := healthOk env |}.

(** The page passes [handleSimulation] as the [onSubmit] of the form:
    one click on the submit button. *)
Definition submit (parseFloat : string -> option Q) (env : Env)
  (form : ParameterControls.State) (st : State)
  : ParameterControls.State * State :=
  match ParameterControls.handleSubmit parseFloat form with
  | (form', Some parameters) => (form', handleSimulation env parameters st)
  | (form', None) => (form', st)
  end.

(** The cost part of a result object: everything but the timings. *)
Definition costFields (v : JSValue) : list (string * JSValue) :=
  match v with
  | JObj fields =>
      filter (fun kv => negb (String.eqb (fst kv) "performanceMetrics")) fields
  | JNum _ => []
  end.

Definition recognized (tier : string) : bool :=
  String.eqb tier "vip" || String.eqb tier "standard" || String.eqb tier "basic".

(** *** Vocabulary of the properties and examples *)

Definition standardOrder : SimulationParameters :=
  {| orderSize := 1; volatility := 50; feeTier := "standard" |}.

Definition exampleEnv : Env :=
  {| healthOk := false; startTime := 1000; random1 := 0.5; random2 := 0.5;
     endTime := 1002 |}.

(** A form whose fee tier is none of the three offered ones. *)
Definition unknownTierForm : ParameterControls.State :=
  {| ParameterControls.st_orderSize := "1";
     ParameterControls.st_volatility := 50;
     ParameterControls.st_feeTier := "unknown";
     ParameterControls.st_error := EmptyString |}.

(** A form whose order size is negative. *)
Definition negativeSizeForm : ParameterControls.State :=
  {| ParameterControls.st_orderSize := "-1";
     ParameterControls.st_volatility := 50;
     ParameterControls.st_feeTier := "standard";
     ParameterControls.st_error := EmptyString |}.

(** The wording of the specification: the result has a [netCost] that
    is the sum of the three cost terms. *)
Definition netCostAsSpecified (r : JSValue) (parameters : SimulationParameters)
  : Prop :=
  exists x, getField "netCost" r = Some (JNum x) /\
    x == slippage parameters + fees parameters + marketImpact parameters.

(** The wording of the specification: a tier outside the enumeration
    fails validation. *)
Definition unknownTierRejected (parseFloat : string -> option Q)
  (form : ParameterControls.State) : Prop :=
  recognized (ParameterControls.st_feeTier form) = false ->
  snd (ParameterControls.handleSubmit parseFloat form) = None.

(** The wording of the specification: a click with a tier outside the
    enumeration leaves an error message and produces no estimate. *)
Definition unknownTierReported (parseFloat : string -> option Q) (env : Env)
  (form : ParameterControls.State) (st : State) : Prop :=
  recognized (ParameterControls.st_feeTier form) = false ->
  ParameterControls.st_error (fst (submit parseFloat env form st)) <> EmptyString /\
  snd (submit parseFloat env form st) = st.

End Dashboard.
(** ** The cost terms on binary64 numbers

    The same lines of [handleSimulation], evaluated on IEEE 754 doubles,
    to compare the rational model with what the engine computes on the
    values quoted in the specification. *)

Module Binary64.

(** [Math.min] on doubles: [NaN] if an argument is, and [-0] below [+0]. *)
Definition Math_min (a b : float) : float :=
  if PrimFloat.is_nan a || PrimFloat.is_nan b then nan
  else if (a <? b)%float then a
  else if (b <? a)%float then b
  else if PrimFloat.get_sign a then a else b.

Definition slippage (orderSize volatility : float) : float :=
  (orderSize * volatility / 10000)%float.

Definition feeRate (feeTier : string) : float :=
  let feeRate := 0.001%float in
  if String.eqb feeTier "vip" then 0.0002%float
  else if String.eqb feeTier "standard" then 0.0005%float
  else if String.eqb feeTier "basic" then 0.001%float
  else feeRate.

Definition fees (orderSize : float) (feeTier : string) : float :=
  (orderSize * feeRate feeTier)%float.

Definition marketImpact (orderSize volatility : float) : float :=
  (orderSize * volatility / 5000)%float.

Definition takerProportion (volatility : float) : float :=
  Math_min 0.9%float (volatility / 100)%float.

Definition makerProportion (volatility : float) : float :=
  (1 - takerProportion volatility)%float.

(** The values the volatility slider can take: the integers 0 to 100. *)
Definition ofNat (n : nat) : float :=
  PrimFloat.of_uint63 (Uint63.of_Z (Z.of_nat n)).

Definition sliderValues : list float := map ofNat (seq 0 101).

(** The split at one slider value: the shares add up to 1, the taker
    share is at most 0.9, the maker share is at least the one at 100 and
    equal to it from 90 on. *)
Definition splitHolds (volatility : float) : bool :=
  (makerProportion volatility + takerProportion volatility =? 1)%float
  && (takerProportion volatility <=? 0.9)%float
  && (makerProportion 100 <=? makerProportion volatility)%float
  && (if (90 <=? volatility)%float
      then (makerProportion volatility =? makerProportion 100)%float
      else true).

(** The wording of the specification on doubles: the maker share is at
    least 0.1. *)
Definition makerAtLeastTenth (volatility : float) : bool :=
  (0.1 <=? makerProportion volatility)%float.

(** The wording of the specification on doubles: the impact is twice the
    slippage, and the slippage of a sum of volatilities is the sum of the
    slippages. *)
Definition impactIsDouble (orderSize volatility : float) : bool :=
  (marketImpact orderSize volatility =? 2 * slippage orderSize volatility)%float.

Definition slippageAdditive (orderSize v1 v2 : float) : bool :=
  (slippage orderSize (v1 + v2)
   =? slippage orderSize v1 + slippage orderSize v2)%float.

(** *** The aggregation on doubles *)

(** [Math.max] on doubles: [NaN] if an argument is, and [+0] above [-0]. *)
Definition Math_max (a b : float) : float :=
  if PrimFloat.is_nan a || PrimFloat.is_nan b then nan
  else if (a <? b)%float then b
  else if (b <? a)%float then a
  else if PrimFloat.get_sign a then b else a.

Record FeedEntry := mkFeedEntry {
  feed_price : option float;
  feed_size : option float
}.

Record OrderbookEntry := mkEntry {
  price : float;
  size : float;
  total : float;
  percentage : float
}.

Definition safeEntry (entry : option FeedEntry) : OrderbookEntry :=
  {| price := nullish (optField entry feed_price) 0%float;
     size := nullish (optField entry feed_size) 0%float;
     total := 0%float;
     percentage := 0%float |}.

Fixpoint processFrom (runningTotal : float) (entries : list (option FeedEntry))
  : list OrderbookEntry :=
  match entries with
  | [] => []
  | entry :: rest =>
      let s := safeEntry entry in
      let runningTotal' := (runningTotal + size s)%float in
      {| price := price s;
         size := size s;
         total := runningTotal';
         percentage := 0%float |} :: processFrom runningTotal' rest
  end.

Definition processData (entries : list (option FeedEntry)) : list OrderbookEntry :=
  processFrom 0%float entries.

Definition lastTotal (entries : list OrderbookEntry) : float :=
  last (map total entries) 0%float.

Definition calculatePercentages (maxTotal : float) (entries : list OrderbookEntry)
  : list OrderbookEntry :=
  map (fun entry =>
         {| price := price entry;
            size := size entry;
            total := total entry;
            percentage :=
              if (0 <? maxTotal)%float
              then (total entry / maxTotal * 100)%float
              else 0%float |})
      entries.

(** The two sides of the aggregated book. *)
Definition aggregate (bids asks : list (option FeedEntry)) (maxDepth : nat)
  : list OrderbookEntry * list OrderbookEntry :=
  let processedBids := processData (firstn maxDepth bids) in
  let processedAsks := processData (firstn maxDepth asks) in
  let maxTotal := Math_max (lastTotal processedBids) (lastTotal processedAsks) in
  (calculatePercentages maxTotal processedBids,
   calculatePercentages maxTotal processedAsks).

(** A size the claims admit: a finite double that is not negative. *)
Definition admissibleSize (entry : option FeedEntry) : bool :=
  let s := size (safeEntry entry) in
  (0 <=? s)%float && (s <? infinity)%float.

(** The wording of the specification on doubles: every percentage lies
    in [0,100]. *)
Definition percentagesInRange (side : list OrderbookEntry) : bool :=
  forallb (fun e => (0 <=? percentage e)%float && (percentage e <=? 100)%float)
          side.

(** Two bids of 1e308 each: finite sizes whose sum is not. *)
Definition overflowBids : list (option FeedEntry) :=
  [ Some {| feed_price := Some 50000%float; feed_size := Some 1e308%float |};
    Some {| feed_price := Some 49990%float; feed_size := Some 1e308%float |} ].

End Binary64.

(** ** The depth chart ([OrderbookVisualization.tsx]) *)

Module Chart.
Import Orderbook.








End Chart.

(** ** Further vocabulary for the order book *)

Module Book.
Import Orderbook.

(** The price the spread reads from a side of the input: that of its
    first entry, 0 for a missing price or an empty side. *)
Definition bestPrice (input : option (list (option FeedEntry))) : Q :=
  match nullish input [] with
  | [] => 0
  | e :: _ => price (safeEntry e)
  end.

End Book.

(** ** The aggregation of the earlier revision *)

Module LegacyBook.
Import Orderbook.

(** [processData] without default filling:
    [runningTotal += entry.size; return {...entry, total, percentage: 0}]. *)
Fixpoint processFrom (runningTotal : Q) (entries : list OrderbookEntry)
  : list OrderbookEntry :=
  match entries with
  | [] => []
  | entry :: rest =>
      let runningTotal' := runningTotal + size entry in
      {| price := price entry;
         size := size entry;
         total := runningTotal';
         percentage := 0 |} :: processFrom runningTotal' rest
  end.

Definition processData (entries : list OrderbookEntry) : list OrderbookEntry :=
  processFrom 0 entries.

(** The effect of the earlier revision; [maxTotal] and
    [calculatePercentages] are written as in the current one, and the
    timestamp is copied. *)
Definition aggregate (data : OrderbookData) (maxDepth : nat) : OrderbookData :=
  let processedBids := processData (firstn maxDepth (bids data)) in
  let processedAsks := processData (firstn maxDepth (asks data)) in
  let maxTotal := maxTotalOf processedBids processedAsks in
  {| bids := calculatePercentages maxTotal processedBids;
     asks := calculatePercentages maxTotal processedAsks;
     timestamp := timestamp data |}.

End LegacyBook.

(** ** The earlier revision of the page *)

Module LegacyPage.
Import Dashboard.

(** Writing a property in an object literal: an existing key keeps its
    place and takes the new value, a new key goes last. *)
Fixpoint setProp (name : string) (v : JSValue) (fields : list (string * JSValue))
  : list (string * JSValue) :=
  match fields with
  | [] => [(name, v)]
  | (k, w) :: rest =>
      if String.eqb k name then (k, v) :: rest
      else (k, w) :: setProp name v rest
  end.

(** [...v] inside an object literal: the properties of an object, nothing
    for a number or for [undefined]. *)
Definition spread (v : option JSValue) : list (string * JSValue) :=
  match v with
  | Some (JObj fields) => fields
  | Some (JNum _) => []
  | None => []
  end.

(** What one run reads from outside: the two readings of
    [performance.now()] and the outcome of the request, [None] when the
    request fails, the status is not ok or the body cannot be parsed.  A
    parsed body is a number or an object here. *)
Record Env := mkEnv {
  startTime : Q;
  reply : option JSValue;
  endTime : Q
}.

Record State := mkState {
  simulationResults : JSValue;
  isLoading : bool
}.

(** The mock data of the [catch] block. *)
Definition mockResults : JSValue :=
  JObj
    [ ("slippage", JNum 0.05);
      ("fees", JNum 0.0015);
      ("marketImpact", JNum 0.12);
      ("makerTakerProportion",
        JObj [ ("maker", JNum 0.65); ("taker", JNum 0.35) ]);
      ("performanceMetrics",
        JObj [ ("processingLatency", JNum 15);
               ("uiUpdateLatency", JNum 8);
               ("endToEndLatency", JNum 120) ]) ].

(** [{...results, performanceMetrics: {...results.performanceMetrics,
     endToEndLatency: endTime - startTime}}]. *)
Definition withEndToEnd (results : JSValue) (elapsed : Q) : JSValue :=
  JObj
    (setProp "performanceMetrics"
       (JObj (setProp "endToEndLatency" (JNum elapsed)
                (spread (getField "performanceMetrics" results))))
       (spread (Some results))).

(** [handleSimulation] of the earlier page. *)
Definition handleSimulation (env : Env) (st : State) : State :=
  match reply env with
  | Some results =>
      {| simulationResults := withEndToEnd results (endTime env - startTime env);
         isLoading := false |}
  | None =>
      {| simulationResults := mockResults; isLoading := false |}
  end.

(** [v.a.b], [None] when a step is missing. *)
Definition getField2 (a b : string) (v : JSValue) : option JSValue :=
  match getField a v with
  | Some o => getField b o
  | None => None
  end.

End LegacyPage.

(** ** The metrics panel ([MetricsDisplay.tsx]) and how the page fills it *)

Module Metrics.
Import Dashboard.

(** What a card shows: a number printed with [toFixed(digits)], [None]
    standing for [NaN], or a value printed as it is. *)
Inductive Shown :=
| ToFixed (digits : nat) (x : option Q)
| Raw (v : JSValue).

(** Arithmetic on a value that may not be a number. *)
Definition toNumber (v : JSValue) : option Q :=
  match v with
  | JNum x => Some x
  | JObj _ => None
  end.

(** A destructured property with its default: the default stands in for
    a missing property. *)
Definition prop (name : string) (default : Q) (props : JSValue) : JSValue :=
  nullish (getField name props) (JNum default).

Record Panel := mkPanel {
  slippageCard : Shown;
  feesCard : Shown;
  marketImpactCard : Shown;
  makerShare : Shown;
  takerShare : Shown;
  processingBadge : Shown;
  uiUpdateBadge : Shown;
  endToEndBadge : Shown
}.

(** [MetricsDisplay]: the numbers it prints, read from its properties. *)
Definition MetricsDisplay (props : JSValue) : Panel :=
  let slippage := prop "slippage" 0.05 props in
  let fees := prop "fees" 0.001 props in
  let marketImpact := prop "marketImpact" 0.12 props in
  let makerTakerProportion := prop "makerTakerProportion" 0.75 props in
  let processingLatency := prop "processingLatency" 12 props in
  let uiUpdateSpeed := prop "uiUpdateSpeed" 8 props in
  let endToEndTiming := prop "endToEndTiming" 45 props in
  {| slippageCard := ToFixed 3 (option_map (fun x => x * 100) (toNumber slippage));
     feesCard := ToFixed 3 (option_map (fun x => x * 100) (toNumber fees));
     marketImpactCard :=
       ToFixed 3 (option_map (fun x => x * 100) (toNumber marketImpact));
     makerShare :=
       ToFixed 1 (option_map (fun x => x * 100) (toNumber makerTakerProportion));
     takerShare :=
       ToFixed 1
         (option_map (fun x => (1 - x) * 100) (toNumber makerTakerProportion));
     processingBadge := Raw processingLatency;
     uiUpdateBadge := Raw uiUpdateSpeed;
     endToEndBadge := Raw endToEndTiming |}.

(** A property of an object literal whose value may be [undefined]: an
    undefined value reads like a missing property. *)
Definition field (name : string) (v : option JSValue) : list (string * JSValue) :=
  match v with
  | Some w => [(name, w)]
  | None => []
  end.

(** The properties the page passes: one object under [metrics].  Reading
    [.taker] or a latency off a missing object throws, which is [None]. *)
Definition metricsProps (st : Dashboard.State) : option JSValue :=
  let r := simulationResults st in
  match getField "makerTakerProportion" r, getField "performanceMetrics" r with
  | Some proportion, Some performance =>
      Some (JObj
        [ ("metrics",
            JObj (field "slippage" (getField "slippage" r)
                  ++ field "fees" (getField "fees" r)
                  ++ field "marketImpact" (getField "marketImpact" r)
                  ++ field "makerTakerProportion" (getField "taker" proportion)
                  ++ field "processingLatency"
                       (getField "processingLatency" performance)
                  ++ field "uiUpdateSpeed"
                       (getField "uiUpdateLatency" performance)
                  ++ field "endToEndTiming"
                       (getField "endToEndLatency" performance))%list) ])
  | _, _ => None
  end.

(** The panel as the page renders it. *)
Definition renderedPanel (st : Dashboard.State) : option Panel :=
  option_map MetricsDisplay (metricsProps st).

End Metrics.

(** * Comparisons *)

Lemma gtb_true (x y : Q) : gtb x y = true <-> y < x.
Proof.
  unfold gtb. rewrite negb_true_iff.
  split; intro H.
  - apply Qnot_le_lt. intro Hle. apply Qle_bool_iff in Hle. congruence.
  - destruct (Qle_bool x y) eqn:E; [|reflexivity].
    apply Qle_bool_iff in E. exfalso. apply (Qlt_not_le _ _ H E).
Qed.

Lemma gtb_false (x y : Q) : gtb x y = false <-> x <= y.
Proof.
  unfold gtb. rewrite negb_false_iff. apply Qle_bool_iff.
Qed.

Lemma ltb_true (x y : Q) : ltb x y = true <-> x < y.
Proof. apply gtb_true. Qed.

Lemma ltb_false (x y : Q) : ltb x y = false <-> y <= x.
Proof. apply gtb_false. Qed.

Lemma leb_true (x y : Q) : leb x y = true <-> x <= y.
Proof. apply Qle_bool_iff. Qed.

Lemma leb_false (x y : Q) : leb x y = false <-> y < x.
Proof.
  rewrite <- gtb_true. unfold gtb, leb. rewrite negb_true_iff. reflexivity.
Qed.

Lemma neqb_true (x y : Q) : neqb x y = true <-> ~ x == y.
Proof.
  unfold neqb. rewrite negb_true_iff. split; intro H.
  - apply Qeq_bool_neq; exact H.
  - destruct (Qeq_bool x y) eqn:E; [|reflexivity].
    apply Qeq_bool_iff in E. contradiction.
Qed.

Lemma neqb_false (x y : Q) : neqb x y = false <-> x == y.
Proof.
  unfold neqb. rewrite negb_false_iff. apply Qeq_bool_iff.
Qed.

(** * Properties of the aggregation *)

Section Aggregation.
Import Orderbook.

Lemma processFrom_length (es : list (option FeedEntry)) :
  forall r, length (processFrom r es) = length es.
Proof.
  induction es as [|e es IH]; intro r; simpl; [reflexivity|].
  now rewrite IH.
Qed.

(** [safeEntry] reads the size and the price of the input. *)
Lemma safeEntry_size (e : option FeedEntry) : size (safeEntry e) = feedSize e.
Proof.
  destruct e as [[p [s|] t q]|]; reflexivity.
Qed.

Lemma safeEntry_price (e : option FeedEntry) : price (safeEntry e) = feedPrice e.
Proof.
  destruct e as [[[p|] s t q]|]; reflexivity.
Qed.

Lemma processFrom_size (es : list (option FeedEntry)) :
  forall r, map size (processFrom r es) = sizesOf es.
Proof.
  induction es as [|e es IH]; intro r; [reflexivity|].
  cbn [processFrom map sizesOf size]. rewrite safeEntry_size.
  f_equal. apply IH.
Qed.

Lemma processFrom_price (es : list (option FeedEntry)) :
  forall r, map price (processFrom r es) = pricesOf es.
Proof.
  induction es as [|e es IH]; intro r; [reflexivity|].
  cbn [processFrom map pricesOf price]. rewrite safeEntry_price.
  f_equal. apply IH.
Qed.

(** Each running total is the one before it plus the size of the entry;
    the first one starts from the initial value of [runningTotal]. *)
Lemma processFrom_step (es : list (option FeedEntry)) :
  forall r i, (i < length es)%nat ->
    nth i (map total (processFrom r es)) 0
    = match i with
      | O => r
      | S j => nth j (map total (processFrom r es)) 0
      end + nth i (sizesOf es) 0.
Proof.
  induction es as [|e es IH]; intros r i Hi; simpl in Hi; [lia|].
  destruct i as [|i].
  - cbn [processFrom map nth sizesOf total]. now rewrite safeEntry_size.
  - cbn [processFrom map nth sizesOf].
    change (map feedSize es) with (sizesOf es).
    rewrite (IH _ i) by lia.
    destruct i; reflexivity.
Qed.

Lemma processFrom_lower (es : list (option FeedEntry)) :
  forall r, nonNegative es ->
    forall i, (i < length es)%nat -> r <= nth i (map total (processFrom r es)) 0.
Proof.
  induction es as [|e es IH]; intros r Hnn i Hi; simpl in Hi; [lia|].
  inversion Hnn as [|x xs Hx Hxs]; subst.
  rewrite <- safeEntry_size in Hx.
  destruct i as [|i]; cbn [processFrom map nth total].
  - lra.
  - eapply Qle_trans; [|apply IH; [exact Hxs|lia]]. lra.
Qed.

Lemma processFrom_nonDecreasing (es : list (option FeedEntry)) :
  forall r, nonNegative es -> nonDecreasing (map total (processFrom r es)).
Proof.
  induction es as [|e es IH]; intros r Hnn i j [Hij Hj].
  - simpl in Hj. lia.
  - rewrite length_map, processFrom_length in Hj. simpl in Hj.
    inversion Hnn as [|x xs Hx Hxs]; subst.
    rewrite <- safeEntry_size in Hx.
    destruct i as [|i], j as [|j]; try lia;
      cbn [processFrom map nth total].
    + lra.
    + apply processFrom_lower; [exact Hxs|lia].
    + apply IH; [exact Hxs|].
      rewrite length_map, processFrom_length. lia.
Qed.

Lemma last_cons_nonempty {A : Type} (x y : A) (l : list A) (d : A) :
  last (x :: y :: l) d = last (y :: l) d.
Proof. reflexivity. Qed.

(** The last running total is the left-to-right sum of the sizes, the
    additions made in the order of the loop. *)
Lemma processFrom_last (es : list (option FeedEntry)) :
  forall r d, es <> [] ->
    last (map total (processFrom r es)) d = fold_left Qplus (sizesOf es) r.
Proof.
  induction es as [|e es IH]; intros r d Hne; [congruence|].
  destruct es as [|e' es].
  - cbn [processFrom map last total sizesOf fold_left].
    now rewrite safeEntry_size.
  - change (processFrom r (e :: e' :: es))
      with ({| price := price (safeEntry e); size := size (safeEntry e);
               total := r + size (safeEntry e); percentage := 0 |}
            :: processFrom (r + size (safeEntry e)) (e' :: es)).
    remember (e' :: es) as tl eqn:Htl.
    destruct (processFrom (r + size (safeEntry e)) tl) as [|p ps] eqn:Hp.
    { subst tl. simpl in Hp. discriminate. }
    simpl map at 1. rewrite last_cons_nonempty.
    change (total p :: map total ps) with (map total (p :: ps)).
    rewrite <- Hp, IH by (subst tl; discriminate).
    cbn [sizesOf map fold_left]. now rewrite safeEntry_size.
Qed.

Lemma processData_last (es : list (option FeedEntry)) :
  lastTotal (processData es) = sumInOrder (sizesOf es).
Proof.
  destruct es as [|e es].
  - reflexivity.
  - unfold lastTotal, processData, sumInOrder.
    apply processFrom_last. discriminate.
Qed.

Lemma calculatePercentages_length m (l : list OrderbookEntry) :
  length (calculatePercentages m l) = length l.
Proof. apply length_map. Qed.

Lemma calculatePercentages_total m (l : list OrderbookEntry) :
  map total (calculatePercentages m l) = map total l.
Proof.
  unfold calculatePercentages. rewrite map_map. reflexivity.
Qed.

Lemma calculatePercentages_size m (l : list OrderbookEntry) :
  map size (calculatePercentages m l) = map size l.
Proof.
  unfold calculatePercentages. rewrite map_map. reflexivity.
Qed.

Lemma calculatePercentages_price m (l : list OrderbookEntry) :
  map price (calculatePercentages m l) = map price l.
Proof.
  unfold calculatePercentages. rewrite map_map. reflexivity.
Qed.

Lemma calculatePercentages_lastTotal m (l : list OrderbookEntry) :
  lastTotal (calculatePercentages m l) = lastTotal l.
Proof.
  unfold lastTotal. now rewrite calculatePercentages_total.
Qed.

(** One side of the aggregated book, whatever the normalisation
    constant. *)
Lemma side_truncatedRunningTotals m k (input : option (list (option FeedEntry))) :
  truncatedRunningTotals k input
    (calculatePercentages m (processData (slice0 input k))).
Proof.
  unfold truncatedRunningTotals, slice0, processData.
  set (window := firstn k (nullish input [])).
  rewrite calculatePercentages_length, calculatePercentages_price,
    calculatePercentages_size, calculatePercentages_total,
    calculatePercentages_lastTotal.
  rewrite processFrom_length, processFrom_price, processFrom_size.
  repeat split.
  - unfold window. apply firstn_le_length.
  - intros i Hi. rewrite processFrom_step by exact Hi.
    destruct i; reflexivity.
  - intro Hnn. apply processFrom_nonDecreasing. exact Hnn.
  - apply processData_last.
Qed.

Lemma slice0_idempotent {A : Type} (xs : option (list A)) (k : nat) :
  slice0 (Some (slice0 xs k)) k = slice0 xs k.
Proof.
  unfold slice0. simpl nullish. rewrite firstn_firstn, Nat.min_id.
  reflexivity.
Qed.

Lemma last_as_nth {A : Type} (l : list A) (d : A) :
  last l d = nth (length l - 1) l d.
Proof.
  induction l as [|a l IH]; [reflexivity|].
  destruct l as [|b l]; [reflexivity|].
  rewrite last_cons_nonempty, IH. simpl length.
  replace (S (S (length l)) - 1)%nat with (S (length l)) by lia.
  replace (S (length l) - 1)%nat with (length l) by lia.
  reflexivity.
Qed.

Lemma nonNegative_firstn k (es : list (option FeedEntry)) :
  nonNegative es -> nonNegative (firstn k es).
Proof.
  unfold nonNegative. revert k.
  induction es as [|e es IH]; intros k H; destruct k; simpl; try constructor.
  - inversion H; assumption.
  - apply IH. inversion H; assumption.
Qed.

(** Under non-negative sizes every running total lies between 0 and the
    last one. *)
Lemma processData_total_bounds (es : list (option FeedEntry)) :
  nonNegative es ->
  forall e, In e (processData es) -> 0 <= total e <= lastTotal (processData es).
Proof.
  intros Hnn e Hin. unfold lastTotal, processData in *.
  apply (in_map total) in Hin.
  apply (In_nth _ _ 0) in Hin. destruct Hin as (i & Hi & Hnth).
  rewrite <- Hnth.
  pose proof Hi as Hi'. rewrite length_map, processFrom_length in Hi'.
  split.
  - apply processFrom_lower; assumption.
  - rewrite last_as_nth.
    apply processFrom_nonDecreasing; [exact Hnn|]. lia.
Qed.

Lemma in_calculatePercentages m (l : list OrderbookEntry) e :
  In e (calculatePercentages m l) ->
  exists e0, In e0 l /\ total e = total e0 /\
    percentage e = if gtb m 0 then (total e0 / m) * 100 else 0.
Proof.
  unfold calculatePercentages. rewrite in_map_iff.
  intros (e0 & <- & Hin). exists e0. simpl. auto.
Qed.

Lemma percent_range (t m : Q) :
  0 < m -> 0 <= t <= m -> 0 <= (t / m) * 100 <= 100.
Proof.
  intros Hm [H0 H1].
  assert (Hlo : 0 <= t / m) by (apply Qle_shift_div_l; [exact Hm|lra]).
  assert (Hhi : t / m <= 1) by (apply Qle_shift_div_r; [exact Hm|lra]).
  set (q := t / m) in *. lra.
Qed.

Lemma percent_full (t m : Q) : 0 < m -> t == m -> (t / m) * 100 == 100.
Proof.
  intros Hm Ht. rewrite Ht. field. lra.
Qed.

(** A positive last total is the total of some entry. *)
Lemma lastTotal_attained (l : list OrderbookEntry) :
  0 < lastTotal l -> exists e, In e l /\ total e = lastTotal l.
Proof.
  unfold lastTotal. intro Hpos.
  destruct l as [|a l]; [simpl in Hpos; lra|].
  assert (Hin : In (last (map total (a :: l)) 0) (map total (a :: l))).
  { rewrite last_as_nth. apply nth_In. simpl. lia. }
  apply in_map_iff in Hin. destruct Hin as (e & He & Hin).
  exists e. split; [exact Hin|exact He].
Qed.

(** Reading an aggregated side back in yields the running totals it was
    built from. *)
Lemma processFrom_asFeedEntry m (es : list (option FeedEntry)) :
  forall r,
    processFrom r (map asFeedEntry (calculatePercentages m (processFrom r es)))
    = processFrom r es.
Proof.
  induction es as [|e es IH]; intro r; simpl; [reflexivity|].
  f_equal. apply IH.
Qed.

End Aggregation.

(** * Claims about the aggregated book *)

Import Orderbook.

(** C2.  Whatever the book and the depth [k], each side of the result has
    at most [k] entries, carries the prices and sizes that the feed gives
    for the first [k] levels of the input (0 for what is missing), and its
    totals obey [total[i] = total[i-1] + size[i]] with [total[-1] = 0];
    the last total is the sum of the sizes of that window, added from 0 in
    the order of the levels, and the totals are non-decreasing when the
    sizes of the window are non-negative.  The result is that of the book
    cut down to its first [k] entries per side. *)
Theorem aggregate_truncates_then_accumulates now (data : FeedData) (k : nat) :
  truncatedRunningTotals k (feed_bids data) (bids (aggregate now data k)) /\
  truncatedRunningTotals k (feed_asks data) (asks (aggregate now data k)) /\
  aggregate now (visibleWindow data k) k = aggregate now data k.
Proof.
  split; [|split].
  - unfold aggregate; simpl. apply side_truncatedRunningTotals.
  - unfold aggregate; simpl. apply side_truncatedRunningTotals.
  - unfold aggregate, visibleWindow. cbn [feed_bids feed_asks feed_timestamp].
    rewrite !slice0_idempotent. reflexivity.
Qed.

Lemma aggregate_truncates_then_accumulates_witness :
  nonNegative (firstn 3 (nullish (feed_asks exampleBook) [])) /\
  nonDecreasing (map total (asks (aggregate 0 exampleBook 3))) /\
  map size (asks (aggregate 0 exampleBook 3)) = [1; 0; 0.5] /\
  map price (asks (aggregate 0 exampleBook 3)) = [50010; 0; 50030] /\
  lastTotal (asks (aggregate 0 exampleBook 3)) = 0 + 1 + 0 + 0.5.
Proof.
  assert (Hnn : nonNegative (firstn 3 (nullish (feed_asks exampleBook) []))).
  { repeat constructor; vm_compute; discriminate. }
  split; [exact Hnn|].
  destruct (aggregate_truncates_then_accumulates 0 exampleBook 3)
    as (_ & (_ & Hprice & Hsize & _ & Hmono & Hlast) & _).
  split; [exact (Hmono Hnn)|].
  split; [exact Hsize|]. split; [exact Hprice|exact Hlast].
Defined.

(** C3 as stated fails on the doubles the code computes with: two bids
    of 1e308 each are finite and non-negative, their running total
    overflows to [Infinity], the normalisation constant is [Infinity] and
    the second percentage is [Infinity / Infinity * 100], which is [NaN]
    and lies in no interval. *)
Lemma percentage_overflow_counterexample :
  forallb Binary64.admissibleSize Binary64.overflowBids = true /\
  map Binary64.total (fst (Binary64.aggregate Binary64.overflowBids [] 10))
  = [1e308%float; infinity] /\
  map (fun e => PrimFloat.is_nan (Binary64.percentage e))
      (fst (Binary64.aggregate Binary64.overflowBids [] 10))
  = [false; true] /\
  Binary64.percentagesInRange
    (fst (Binary64.aggregate Binary64.overflowBids [] 10)) = false.
Proof.
  repeat split; vm_compute; reflexivity.
Qed.

(** C3, amended.  For a book with non-negative sizes that add up to at
    most [sumBound] on each side, so that no running total overflows,
    every percentage of the result lies in [0,100]; when the normalisation
    constant is positive it is the total of some entry, and an entry whose
    total is the largest of both sides has percentage 100; when the
    constant is 0 every percentage is 0; an empty side gives an empty
    side, and two empty sides give the constant 0. *)
Theorem depthPercent_bounds now (data : FeedData) (k : nat)
  (Hb : nonNegative (nullish (feed_bids data) []))
  (Ha : nonNegative (nullish (feed_asks data) []))
  (Sb : summable (nullish (feed_bids data) []))
  (Sa : summable (nullish (feed_asks data) [])) :
  let out := aggregate now data k in
  (forall e, In e (entriesOf out) -> 0 <= percentage e <= 100) /\
  (0 < maxCumulative out ->
     (exists e, In e (entriesOf out) /\ total e == maxCumulative out) /\
     (forall e, In e (entriesOf out) ->
        (forall e', In e' (entriesOf out) -> total e' <= total e) ->
        percentage e == 100)) /\
  (maxCumulative out == 0 ->
     forall e, In e (entriesOf out) -> percentage e == 0) /\
  (nullish (feed_bids data) [] = [] -> bids out = []) /\
  (nullish (feed_asks data) [] = [] -> asks out = []) /\
  (bids out = [] -> asks out = [] -> maxCumulative out == 0).
Proof.
  intro out.
  set (PB := processData (slice0 (feed_bids data) k)).
  set (PA := processData (slice0 (feed_asks data) k)).
  set (m := maxTotalOf PB PA).
  assert (Hout : entriesOf out
                 = (calculatePercentages m PB ++ calculatePercentages m PA)%list)
    by reflexivity.
  assert (Hmax : maxCumulative out = m).
  { unfold maxCumulative, out, aggregate, maxTotalOf; simpl.
    now rewrite !calculatePercentages_lastTotal. }
  assert (HbndB : forall e, In e PB -> 0 <= total e <= m).
  { intros e He.
    destruct (processData_total_bounds _ (nonNegative_firstn k _ Hb) e He)
      as [H0 H1].
    split; [exact H0|].
    eapply Qle_trans; [exact H1|]. apply Q.le_max_l. }
  assert (HbndA : forall e, In e PA -> 0 <= total e <= m).
  { intros e He.
    destruct (processData_total_bounds _ (nonNegative_firstn k _ Ha) e He)
      as [H0 H1].
    split; [exact H0|].
    eapply Qle_trans; [exact H1|]. apply Q.le_max_r. }
  assert (Hshape : forall e, In e (entriesOf out) ->
            exists e0, 0 <= total e0 <= m /\ total e = total e0 /\
              percentage e = if gtb m 0 then (total e0 / m) * 100 else 0).
  { intros e He. rewrite Hout in He. apply in_app_or in He.
    destruct He as [He|He];
      apply in_calculatePercentages in He;
      destruct He as (e0 & Hin & Ht & Hp); exists e0; auto. }
  rewrite Hmax.
  split; [|split; [|split; [|split; [|split]]]].
  - intros e He. destruct (Hshape e He) as (e0 & Hbnd & _ & ->).
    destruct (gtb m 0) eqn:Hm.
    + apply gtb_true in Hm. apply percent_range; assumption.
    + lra.
  - intro Hpos.
    assert (Hex : exists e, In e (entriesOf out) /\ total e == m).
    { assert (Hside : 0 < lastTotal PB /\ m == lastTotal PB
                      \/ 0 < lastTotal PA /\ m == lastTotal PA).
      { unfold m, maxTotalOf in *.
        destruct (Q.max_dec (lastTotal PB) (lastTotal PA)) as [E|E];
          [left|right]; rewrite E in Hpos; split; auto; symmetry; exact E. }
      destruct Hside as [[Hp E]|[Hp E]];
        apply lastTotal_attained in Hp; destruct Hp as (e0 & Hin & Ht).
      - exists {| price := price e0; size := size e0; total := total e0;
                  percentage :=
                    if gtb m 0 then (total e0 / m) * 100 else 0 |}.
        split; [|simpl; rewrite Ht; symmetry; exact E].
        rewrite Hout. apply in_or_app. left.
        unfold calculatePercentages. apply in_map_iff.
        exists e0. split; [reflexivity|exact Hin].
      - exists {| price := price e0; size := size e0; total := total e0;
                  percentage :=
                    if gtb m 0 then (total e0 / m) * 100 else 0 |}.
        split; [|simpl; rewrite Ht; symmetry; exact E].
        rewrite Hout. apply in_or_app. right.
        unfold calculatePercentages. apply in_map_iff.
        exists e0. split; [reflexivity|exact Hin]. }
    split; [exact Hex|].
    intros e He Hlargest.
    destruct Hex as (top & Htop & Etop).
    pose proof (Hlargest top Htop) as Hge.
    destruct (Hshape e He) as (e0 & [_ Hle] & Ht & ->).
    assert (Hgt : gtb m 0 = true) by (apply gtb_true; exact Hpos).
    rewrite Hgt. apply percent_full; [exact Hpos|].
    rewrite Ht, Etop in Hge. lra.
  - intros Hzero e He. destruct (Hshape e He) as (e0 & _ & _ & ->).
    assert (Hgt : gtb m 0 = false) by (apply gtb_false; lra).
    rewrite Hgt. reflexivity.
  - intro Hnil. unfold out, aggregate, slice0; simpl.
    rewrite Hnil. now destruct k.
  - intro Hnil. unfold out, aggregate, slice0; simpl.
    rewrite Hnil. now destruct k.
  - intros HB HA. rewrite <- Hmax. unfold maxCumulative. rewrite HB, HA.
    reflexivity.
Qed.

Lemma depthPercent_bounds_witness :
  nonNegative (nullish (feed_bids exampleBook) []) /\
  nonNegative (nullish (feed_asks exampleBook) []) /\
  summable (nullish (feed_bids exampleBook) []) /\
  summable (nullish (feed_asks exampleBook) []) /\
  Forall (fun e => 0 <= percentage e <= 100)
    (entriesOf (aggregate 0 exampleBook 2)) /\
  exists e, In e (entriesOf (aggregate 0 exampleBook 2)) /\
    total e == 3.5 /\ percentage e == 100.
Proof.
  assert (Hb : nonNegative (nullish (feed_bids exampleBook) [])).
  { repeat constructor; vm_compute; discriminate. }
  assert (Ha : nonNegative (nullish (feed_asks exampleBook) [])).
  { repeat constructor; vm_compute; discriminate. }
  assert (Sb : summable (nullish (feed_bids exampleBook) [])).
  { vm_compute. discriminate. }
  assert (Sa : summable (nullish (feed_asks exampleBook) [])).
  { vm_compute. discriminate. }
  split; [exact Hb|]. split; [exact Ha|]. split; [exact Sb|]. split; [exact Sa|].
  destruct (depthPercent_bounds 0 exampleBook 2 Hb Ha Sb Sa)
    as (Hrange & Hmax & _).
  split; [apply Forall_forall; exact Hrange|].
  assert (Hpos : 0 < maxCumulative (aggregate 0 exampleBook 2))
    by (vm_compute; reflexivity).
  destruct (Hmax Hpos) as [(e & Hin & Htot) Hfull].
  exists e. split; [exact Hin|].
  assert (Hm : maxCumulative (aggregate 0 exampleBook 2) == 3.5)
    by (vm_compute; reflexivity).
  split; [rewrite Htot; exact Hm|].
  apply Hfull; [exact Hin|].
  intros e' He'. rewrite Htot, Hm.
  simpl in He'.
  repeat (destruct He' as [<-|He']; [vm_compute; discriminate|]).
  contradiction.
Defined.

(** C10.  Aggregating an aggregated book again, at the same depth, gives
    the same entries on both sides. *)
Theorem aggregate_idempotent now now' (data : FeedData) (k : nat) :
  let out := aggregate now data k in
  bids (aggregate now' (asFeed out) k) = bids out /\
  asks (aggregate now' (asFeed out) k) = asks out.
Proof.
  intro out.
  set (PB := processData (slice0 (feed_bids data) k)).
  set (PA := processData (slice0 (feed_asks data) k)).
  set (m := maxTotalOf PB PA).
  assert (Hlen : forall input,
            (length (map asFeedEntry
               (calculatePercentages m (processData (slice0 input k)))) <= k)%nat).
  { intro input.
    rewrite length_map, calculatePercentages_length.
    unfold processData. rewrite processFrom_length.
    unfold slice0. apply firstn_le_length. }
  assert (Hside : forall input,
            processData (slice0 (Some (map asFeedEntry
              (calculatePercentages m (processData (slice0 input k))))) k)
            = processData (slice0 input k)).
  { intro input. unfold slice0 at 1. simpl nullish.
    rewrite firstn_all2 by apply Hlen.
    unfold processData. apply processFrom_asFeedEntry. }
  unfold out, aggregate, asFeed.
  cbn [bids asks feed_bids feed_asks].
  subst m PB PA.
  rewrite (Hside (feed_bids data)), (Hside (feed_asks data)).
  split; reflexivity.
Qed.

(** The earlier revision prints the placeholder as soon as one side is
    empty. *)
Lemma legacy_spread_placeholder (d : OrderbookData) :
  asks d = [] \/ bids d = [] ->
  Legacy.spreadIndicator d = (Text "--", Text "--").
Proof.
  unfold Legacy.spreadIndicator, Legacy.spreadAbsoluteCell,
    Legacy.spreadPercentCell.
  intros [H|H]; rewrite H; simpl.
  - reflexivity.
  - destruct (hd_error (asks d)); reflexivity.
Qed.

(** C7 as stated fails: with bids only, the indicator shows numbers, the
    absolute spread being the fallback 0 minus the best bid. *)
Lemma spread_one_sided_counterexample :
  let out := aggregate 0 oneSidedBook 10 in
  ~ spreadUnavailableWhenOneSided out /\
  asks out = [] /\
  absolute (calculateSpread out) == 0 - 50000 /\
  spread_percentage (calculateSpread out) == 0 - 100.
Proof.
  cbv zeta. split; [|split; [|split]].
  - intro H. destruct H as [H _]; [left; reflexivity|].
    vm_compute in H. discriminate.
  - reflexivity.
  - reflexivity.
  - reflexivity.
Qed.

(** C7, amended.  The indicator always shows the two numbers of
    [calculateSpread].  With both sides non-empty, the absolute spread is
    the first ask price minus the first bid price and the percentage is
    that difference divided by the bid price and then multiplied by 100,
    the operations in this order, or 0 for a bid price of 0.  An empty side contributes the price 0: without asks the
    absolute spread is minus the best bid, without bids it is the best
    ask and the percentage is 0. *)
Theorem spread_of_book (d : OrderbookData) :
  let s := calculateSpread d in
  Orderbook.spreadIndicator d
    = (Fixed 2 (absolute s), Fixed 3 (spread_percentage s)) /\
  (forall a b restA restB, asks d = a :: restA -> bids d = b :: restB ->
     absolute s = price a - price b /\
     (~ price b == 0 ->
        spread_percentage s = ((price a - price b) / price b) * 100) /\
     (price b == 0 -> spread_percentage s = 0)) /\
  (asks d = [] -> absolute s = 0 - getFirstBidPrice d) /\
  (bids d = [] ->
     absolute s = getFirstAskPrice d - 0 /\ spread_percentage s = 0).
Proof.
  intro s. split; [reflexivity|].
  unfold s, calculateSpread, getFirstAskPrice, getFirstBidPrice.
  split; [|split].
  - intros a b restA restB HA HB. rewrite HA, HB. cbn [absolute spread_percentage].
    split; [reflexivity|]. split.
    + intro Hne. apply neqb_true in Hne. rewrite Hne. reflexivity.
    + intro Hz. apply neqb_false in Hz. rewrite Hz. reflexivity.
  - intro HA. rewrite HA. reflexivity.
  - intro HB. rewrite HB. cbn [absolute spread_percentage].
    split; reflexivity.
Qed.

Lemma spread_of_book_witness :
  absolute (calculateSpread (aggregate 0 exampleBook 2)) = 50010 - 50000 /\
  spread_percentage (calculateSpread (aggregate 0 exampleBook 2))
  = ((50010 - 50000) / 50000) * 100.
Proof.
  destruct (spread_of_book (aggregate 0 exampleBook 2)) as (_ & Hboth & _).
  destruct (Hboth _ _ _ _ eq_refl eq_refl) as (Habs & Hpct & _).
  split; [exact Habs|].
  apply Hpct. vm_compute. discriminate.
Defined.

(** * Claims about the cost model *)

Import Dashboard.

(** The four outcomes of [handleSubmit]. *)
Section Validation.
Import ParameterControls.
Variable parseFloat : string -> option Q.
Variable form : ParameterControls.State.

Lemma handleSubmit_rejects_size :
  parseFloat (st_orderSize form) = None
  \/ (exists x, parseFloat (st_orderSize form) = Some x /\ x <= 0) ->
  handleSubmit parseFloat form
  = (setError form "Order size must be a positive number", None).
Proof.
  unfold handleSubmit. cbn [setError st_orderSize].
  intros [H|(x & H & Hx)]; rewrite H; [reflexivity|].
  apply leb_true in Hx. rewrite Hx. reflexivity.
Qed.

Lemma handleSubmit_rejects_volatility (x : Q) :
  parseFloat (st_orderSize form) = Some x -> 0 < x ->
  st_volatility form < 0 \/ 100 < st_volatility form ->
  handleSubmit parseFloat form
  = (setError form "Volatility must be between 0 and 100", None).
Proof.
  unfold handleSubmit. cbn [setError st_orderSize st_volatility].
  intros H Hx Hv. rewrite H.
  apply leb_false in Hx. rewrite Hx.
  assert (Hor : ltb (st_volatility form) 0 || gtb (st_volatility form) 100 = true).
  { apply orb_true_iff. destruct Hv as [Hv|Hv];
      [left; apply ltb_true|right; apply gtb_true]; exact Hv. }
  rewrite Hor. reflexivity.
Qed.

Lemma volatility_in_range :
  0 <= st_volatility form <= 100 ->
  ltb (st_volatility form) 0 || gtb (st_volatility form) 100 = false.
Proof.
  intros [H0 H1]. apply orb_false_iff. split.
  - apply ltb_false; exact H0.
  - apply gtb_false; exact H1.
Qed.

Lemma handleSubmit_rejects_tier (x : Q) :
  parseFloat (st_orderSize form) = Some x -> 0 < x ->
  0 <= st_volatility form <= 100 ->
  st_feeTier form = EmptyString ->
  handleSubmit parseFloat form = (setError form "Please select a fee tier", None).
Proof.
  unfold handleSubmit. cbn [setError st_orderSize st_volatility st_feeTier].
  intros H Hx Hv Ht. rewrite H.
  apply leb_false in Hx. rewrite Hx, (volatility_in_range Hv), Ht.
  reflexivity.
Qed.

Lemma handleSubmit_accepts (x : Q) :
  parseFloat (st_orderSize form) = Some x -> 0 < x ->
  0 <= st_volatility form <= 100 ->
  st_feeTier form <> EmptyString ->
  handleSubmit parseFloat form
  = (setError form EmptyString,
     Some {| orderSize := x; volatility := st_volatility form;
             feeTier := st_feeTier form |}).
Proof.
  unfold handleSubmit. cbn [setError st_orderSize st_volatility st_feeTier].
  intros H Hx Hv Ht. rewrite H.
  apply leb_false in Hx. rewrite Hx, (volatility_in_range Hv).
  destruct (st_feeTier form); [congruence|reflexivity].
Qed.

End Validation.

(** C1 as stated fails: the result object of the standard order has no
    [netCost]. *)
Lemma netCost_counterexample :
  ~ netCostAsSpecified
      (simulationResults
         (handleSimulation exampleEnv standardOrder Dashboard.initialState))
      standardOrder.
Proof.
  intros (x & Hx & _). vm_compute in Hx. discriminate.
Qed.

(** C1, amended.  The result carries [slippage], [fees] and
    [marketImpact] and no [netCost]; for order size 1, volatility 50 and
    the standard tier they are 0.005, 0.0005 and 0.01, which add up to
    0.0155. *)
Theorem results_cost_terms (env : Env) (p : SimulationParameters)
  (st : Dashboard.State) :
  let r := simulationResults (handleSimulation env p st) in
  getField "slippage" r = Some (JNum (slippage p)) /\
  getField "fees" r = Some (JNum (fees p)) /\
  getField "marketImpact" r = Some (JNum (marketImpact p)) /\
  getField "netCost" r = None /\
  (orderSize p == 1 -> volatility p == 50 -> feeTier p = "standard" ->
     slippage p == 0.005 /\ fees p == 0.0005 /\ marketImpact p == 0.01 /\
     slippage p + fees p + marketImpact p == 0.0155).
Proof.
  cbv zeta.
  split; [reflexivity|]. split; [reflexivity|]. split; [reflexivity|].
  split; [reflexivity|].
  intros Hs Hv Ht. unfold slippage, fees, marketImpact, feeRate.
  rewrite Ht. cbn [String.eqb Ascii.eqb Bool.eqb]. rewrite Hs, Hv.
  repeat split; reflexivity.
Qed.

Lemma results_cost_terms_witness :
  slippage standardOrder == 0.005 /\ fees standardOrder == 0.0005 /\
  marketImpact standardOrder == 0.01 /\
  slippage standardOrder + fees standardOrder + marketImpact standardOrder
  == 0.0155.
Proof.
  destruct (results_cost_terms exampleEnv standardOrder Dashboard.initialState)
    as (_ & _ & _ & _ & H).
  apply H; reflexivity.
Defined.

(** C4 as stated fails: the form with the tier [unknown] passes
    validation, and the order it submits is charged the default rate. *)
Lemma unknown_tier_counterexample :
  ~ unknownTierRejected ParameterControls.parseDecimal unknownTierForm /\
  exists p,
    snd (ParameterControls.handleSubmit ParameterControls.parseDecimal
           unknownTierForm) = Some p /\
    feeTier p = "unknown" /\ feeRate p = 0.001.
Proof.
  split.
  - intro H. specialize (H eq_refl). vm_compute in H. discriminate.
  - eexists. split; [reflexivity|]. split; reflexivity.
Qed.

(** C4, amended.  The rate is 0.0002 for [vip], 0.0005 for [standard],
    0.001 for [basic] and the default 0.001 for every other tier; the fee
    is the order size times the rate; and validation lets every non-empty
    tier through. *)
Theorem feeRate_by_tier (p : SimulationParameters) :
  (feeTier p = "vip" -> feeRate p = 0.0002) /\
  (feeTier p = "standard" -> feeRate p = 0.0005) /\
  (feeTier p = "basic" -> feeRate p = 0.001) /\
  (recognized (feeTier p) = false -> feeRate p = 0.001) /\
  fees p = orderSize p * feeRate p /\
  (forall parseFloat form,
     parseFloat (ParameterControls.st_orderSize form) = Some (orderSize p) ->
     0 < orderSize p ->
     ParameterControls.st_volatility form = volatility p ->
     0 <= volatility p <= 100 ->
     ParameterControls.st_feeTier form = feeTier p ->
     feeTier p <> EmptyString ->
     snd (ParameterControls.handleSubmit parseFloat form) = Some p).
Proof.
  unfold feeRate, recognized.
  split; [intros ->; reflexivity|].
  split; [intros ->; reflexivity|].
  split; [intros ->; reflexivity|].
  split.
  { intro H. apply orb_false_iff in H. destruct H as [H H3].
    apply orb_false_iff in H. destruct H as [H1 H2].
    rewrite H1, H2, H3. reflexivity. }
  split; [reflexivity|].
  intros parseFloat form Hparse Hpos Hv Hrange Ht Hne.
  rewrite (handleSubmit_accepts parseFloat form (orderSize p)); auto.
  - simpl. rewrite Hv, Ht. destruct p; reflexivity.
  - rewrite Hv. exact Hrange.
  - rewrite Ht. exact Hne.
Qed.

Lemma feeRate_by_tier_witness :
  feeRate standardOrder = 0.0005 /\
  snd (ParameterControls.handleSubmit ParameterControls.parseDecimal
         ParameterControls.initialState) = Some standardOrder.
Proof.
  destruct (feeRate_by_tier standardOrder) as (_ & Hstd & _ & _ & _ & Hsub).
  split.
  - apply Hstd. reflexivity.
  - apply Hsub; try reflexivity.
    + split; vm_compute; discriminate.
    + discriminate.
Defined.

(** C5 as stated fails on doubles: at volatility 100 the taker share is
    0.9 and the maker share is [1 - 0.9], which is 0.09999999999999998,
    below 0.1 and different from it. *)
Lemma maker_floor_counterexample :
  Binary64.makerAtLeastTenth 100 = false /\
  (Binary64.takerProportion 100 =? 0.9)%float = true /\
  (Binary64.makerProportion 100 =? 0.1)%float = false /\
  (Binary64.makerProportion 100 <? 0.1)%float = true.
Proof.
  repeat split; vm_compute; reflexivity.
Qed.

(** C5, amended.  The result carries the pair maker/taker with
    [taker = min(0.9, volatility/100)] and [maker = 1 - taker]; the taker
    share is at most 0.9 and grows with the volatility, and for a
    volatility in [0,100] the two shares add up to 1; volatility 0 gives 0
    and 1, volatility 100 gives the taker share 0.9.  On doubles the maker
    share at volatility 100 is [1 - 0.9], that is 0.09999999999999998, and
    at every value of the slider, the integers 0 to 100, the two shares
    add up to 1 and the maker share is at least that number, which it
    equals from 90 on. *)
Theorem makerTaker_split (env : Env) (p : SimulationParameters) :
  getField "makerTakerProportion" (results env p)
    = Some (JObj [ ("maker", JNum (makerProportion p));
                   ("taker", JNum (takerProportion p)) ]) /\
  takerProportion p = Qmin 0.9 (volatility p / 100) /\
  makerProportion p = 1 - takerProportion p /\
  takerProportion p <= 0.9 /\
  (0 <= volatility p <= 100 ->
     makerProportion p + takerProportion p == 1) /\
  (forall p', volatility p <= volatility p' ->
     takerProportion p <= takerProportion p') /\
  (volatility p == 0 -> takerProportion p == 0 /\ makerProportion p == 1) /\
  (volatility p == 100 -> takerProportion p == 0.9) /\
  forallb Binary64.splitHolds Binary64.sliderValues = true /\
  (Binary64.makerProportion 100 =? 0.09999999999999998)%float = true /\
  (Binary64.takerProportion 0 =? 0)%float = true /\
  (Binary64.makerProportion 0 =? 1)%float = true.
Proof.
  split; [reflexivity|]. split; [reflexivity|]. split; [reflexivity|].
  unfold makerProportion, takerProportion.
  split; [apply Q.le_min_l|].
  split; [intros _; ring|].
  split.
  { intros p' Hle. apply Q.min_le_compat_l.
    unfold Qdiv. apply Qmult_le_compat_r; [exact Hle|].
    vm_compute. discriminate. }
  split; [intro Hv; rewrite Hv; split; reflexivity|].
  split; [intro Hv; rewrite Hv; reflexivity|].
  repeat split; vm_compute; reflexivity.
Qed.

Lemma makerTaker_split_witness :
  makerProportion standardOrder + takerProportion standardOrder == 1 /\
  takerProportion standardOrder
  <= takerProportion {| orderSize := 1; volatility := 100; feeTier := "vip" |} /\
  takerProportion {| orderSize := 1; volatility := 100; feeTier := "vip" |}
  == 0.9.
Proof.
  destruct (makerTaker_split exampleEnv standardOrder)
    as (_ & _ & _ & _ & Hsum & Hmono & _).
  destruct (makerTaker_split exampleEnv
              {| orderSize := 1; volatility := 100; feeTier := "vip" |})
    as (_ & _ & _ & _ & _ & _ & _ & Hfull & _).
  split; [apply Hsum; split; vm_compute; discriminate|].
  split; [apply Hmono; vm_compute; discriminate|].
  apply Hfull. reflexivity.
Defined.

(** C6 as stated fails on doubles: for the order size 3 the slippage at
    volatility 10 + 20 is not the sum of the slippages at 10 and at 20
    (0.008999999999999999 against 0.009000000000000001), and for the order
    size 3e-320 at volatility 50, where the results are subnormal, the
    market impact is not twice the slippage. *)
Lemma slippage_linear_counterexample :
  Binary64.slippageAdditive 3 10 20 = false /\
  (Binary64.slippage 3 (10 + 20) =? 0.008999999999999999)%float = true /\
  (Binary64.slippage 3 10 + Binary64.slippage 3 20
   =? 0.009000000000000001)%float = true /\
  Binary64.impactIsDouble 3e-320 50 = false.
Proof.
  repeat split; vm_compute; reflexivity.
Qed.

(** C6, amended.  Slippage is size times volatility over 10000 and
    market impact is the same product over 5000.  For a non-negative size
    and volatility the slippage is non-negative and at most the impact,
    and neither decreases when the size or the volatility grows.  The
    impact is exactly twice the slippage when the product of size and
    volatility is 0 or lies between 1e-300 and 1e300, where no result
    underflows or overflows.  Additivity and homogeneity hold up to
    rounding only and are not part of the statement. *)
Theorem slippage_and_impact (s v : Q) (t : string) :
  let p := {| orderSize := s; volatility := v; feeTier := t |} in
  slippage p = s * v / 10000 /\
  marketImpact p = s * v / 5000 /\
  (0 <= s -> 0 <= v -> 0 <= slippage p <= marketImpact p) /\
  (s * v == 0 \/ 1e-300 <= s * v <= 1e300 ->
     marketImpact p == 2 * slippage p) /\
  (forall s', 0 <= v -> s <= s' ->
     slippage p <= slippage {| orderSize := s'; volatility := v; feeTier := t |} /\
     marketImpact p
     <= marketImpact {| orderSize := s'; volatility := v; feeTier := t |}) /\
  (forall v', 0 <= s -> v <= v' ->
     slippage p <= slippage {| orderSize := s; volatility := v'; feeTier := t |} /\
     marketImpact p
     <= marketImpact {| orderSize := s; volatility := v'; feeTier := t |}).
Proof.
  cbv zeta. unfold slippage, marketImpact. cbn [orderSize volatility].
  assert (Hdiv : forall x y d, 0 < d -> x <= y -> x / d <= y / d).
  { intros x y d Hd Hxy. unfold Qdiv.
    apply Qmult_le_compat_r; [exact Hxy|].
    apply Qinv_le_0_compat. lra. }
  split; [reflexivity|]. split; [reflexivity|].
  split.
  { intros Hs Hv.
    assert (Hsv : 0 <= s * v) by (apply Qmult_le_0_compat; assumption).
    assert (E1 : s * v / 10000 == s * v * (1 # 10000)) by field.
    assert (E2 : s * v / 5000 == s * v * (1 # 5000)) by field.
    rewrite E1, E2. set (x := s * v) in *. lra. }
  split; [intros _; field|].
  split.
  - intros s' Hv Hs.
    assert (H : s * v <= s' * v) by (apply Qmult_le_compat_r; assumption).
    split; apply Hdiv; try exact H; reflexivity.
  - intros v' Hs Hv.
    assert (H : s * v <= s * v').
    { rewrite (Qmult_comm s v), (Qmult_comm s v').
      apply Qmult_le_compat_r; assumption. }
    split; apply Hdiv; try exact H; reflexivity.
Qed.

Lemma slippage_and_impact_witness :
  0 <= slippage standardOrder <= marketImpact standardOrder /\
  marketImpact standardOrder == 2 * slippage standardOrder /\
  slippage standardOrder == 0.005 /\
  slippage standardOrder
  <= slippage {| orderSize := 2; volatility := 50; feeTier := "standard" |}.
Proof.
  destruct (slippage_and_impact 1 50 "standard")
    as (Hs & _ & Hord & Hdouble & Hsize & _).
  split; [apply Hord; vm_compute; discriminate|].
  split; [apply Hdouble; right; split; vm_compute; discriminate|].
  split; [unfold standardOrder; rewrite Hs; reflexivity|].
  apply (Hsize 2); vm_compute; discriminate.
Defined.

(** C8 as stated fails: one click on the form with the tier [unknown]
    leaves no error message and stores a new estimate. *)
Lemma unknown_tier_submit_counterexample :
  ~ unknownTierReported ParameterControls.parseDecimal exampleEnv
      unknownTierForm Dashboard.initialState /\
  ParameterControls.st_error
    (fst (submit ParameterControls.parseDecimal exampleEnv unknownTierForm
            Dashboard.initialState)) = EmptyString /\
  getField "fees"
    (simulationResults
       (snd (submit ParameterControls.parseDecimal exampleEnv unknownTierForm
               Dashboard.initialState)))
  = Some (JNum (1 * 0.001)).
Proof.
  split; [|split].
  - intro H. destruct (H eq_refl) as [Herr _]. apply Herr. reflexivity.
  - reflexivity.
  - reflexivity.
Qed.

(** C8, amended.  One click on the form: an order size that is not a
    number or not positive, then a volatility outside [0,100], then an
    empty fee tier are each refused with a message of their own, and the
    page state is left as it was; every other form, whatever its non-empty
    tier, clears the message and stores the estimate for its parameters. *)
Theorem submit_validation (parseFloat : string -> option Q) (env : Env)
  (form : ParameterControls.State) (st : Dashboard.State) :
  let parsed := parseFloat (ParameterControls.st_orderSize form) in
  let volatility := ParameterControls.st_volatility form in
  let tier := ParameterControls.st_feeTier form in
  let out := submit parseFloat env form st in
  (parsed = None \/ (exists x, parsed = Some x /\ x <= 0) ->
     ParameterControls.st_error (fst out)
       = "Order size must be a positive number" /\ snd out = st) /\
  (forall x, parsed = Some x -> 0 < x ->
     volatility < 0 \/ 100 < volatility ->
     ParameterControls.st_error (fst out)
       = "Volatility must be between 0 and 100" /\ snd out = st) /\
  (forall x, parsed = Some x -> 0 < x -> 0 <= volatility <= 100 ->
     tier = EmptyString ->
     ParameterControls.st_error (fst out) = "Please select a fee tier" /\
     snd out = st) /\
  (forall x, parsed = Some x -> 0 < x -> 0 <= volatility <= 100 ->
     tier <> EmptyString ->
     ParameterControls.st_error (fst out) = EmptyString /\
     snd out
       = handleSimulation env
           {| orderSize := x; volatility := volatility; feeTier := tier |} st) /\
  "Order size must be a positive number" <> "Volatility must be between 0 and 100" /\
  "Order size must be a positive number" <> "Please select a fee tier" /\
  "Volatility must be between 0 and 100" <> "Please select a fee tier".
Proof.
  cbv zeta. unfold submit.
  split; [|split; [|split; [|split]]].
  - intro H. rewrite (handleSubmit_rejects_size parseFloat form H).
    split; reflexivity.
  - intros x H Hx Hv.
    rewrite (handleSubmit_rejects_volatility parseFloat form x H Hx Hv).
    split; reflexivity.
  - intros x H Hx Hv Ht.
    rewrite (handleSubmit_rejects_tier parseFloat form x H Hx Hv Ht).
    split; reflexivity.
  - intros x H Hx Hv Ht.
    rewrite (handleSubmit_accepts parseFloat form x H Hx Hv Ht).
    split; reflexivity.
  - repeat split; discriminate.
Qed.

Lemma submit_validation_witness :
  ParameterControls.st_error
    (fst (submit ParameterControls.parseDecimal exampleEnv negativeSizeForm
            Dashboard.initialState))
  = "Order size must be a positive number" /\
  snd (submit ParameterControls.parseDecimal exampleEnv negativeSizeForm
         Dashboard.initialState) = Dashboard.initialState.
Proof.
  destruct (submit_validation ParameterControls.parseDecimal exampleEnv
              negativeSizeForm Dashboard.initialState) as (H & _).
  apply H. right. eexists. split; [reflexivity|].
  vm_compute. discriminate.
Defined.

(** C9.  The cost part of the result, everything but the timings, is
    the same for two runs on the same parameters, whatever the clock, the
    random draws, the health check and the previous state were. *)
Theorem cost_fields_ignore_timings (env1 env2 : Env) (p : SimulationParameters)
  (st1 st2 : Dashboard.State) :
  costFields (simulationResults (handleSimulation env1 p st1))
  = costFields (simulationResults (handleSimulation env2 p st2)) /\
  costFields (simulationResults (handleSimulation env1 p st1))
  = [ ("slippage", JNum (slippage p));
      ("fees", JNum (fees p));
      ("marketImpact", JNum (marketImpact p));
      ("makerTakerProportion",
        JObj [ ("maker", JNum (makerProportion p));
               ("taker", JNum (takerProportion p)) ]) ].
Proof.
  split; reflexivity.
Qed.

(** * The quoted values on binary64 numbers *)

(** On doubles the standard order gives the doubles nearest to 0.005,
    0.0005 and 0.01, and their sum is the double nearest to 0.0155. *)
Lemma binary64_standard_order :
  (Binary64.slippage 1 50 =? 0.005)%float = true /\
  (Binary64.fees 1 "standard" =? 0.0005)%float = true /\
  (Binary64.marketImpact 1 50 =? 0.01)%float = true /\
  (Binary64.slippage 1 50 + Binary64.fees 1 "standard"
   + Binary64.marketImpact 1 50 =? 0.0155)%float = true.
Proof. repeat split; vm_compute; reflexivity. Qed.

(** On doubles the split at volatility 0 and 50 is exact, and maker and
    taker add up to 1 at volatility 100 as well; but there [1 - 0.9] is
    rounded to 0.09999999999999998, one step below the double nearest to
    0.1: the floor of 0.1 on the maker share holds up to rounding only. *)
Lemma binary64_split :
  (Binary64.takerProportion 0 =? 0)%float = true /\
  (Binary64.makerProportion 0 =? 1)%float = true /\
  (Binary64.takerProportion 50 =? 0.5)%float = true /\
  (Binary64.makerProportion 50 =? 0.5)%float = true /\
  (Binary64.takerProportion 100 =? 0.9)%float = true /\
  (Binary64.makerProportion 100 + Binary64.takerProportion 100 =? 1)%float
  = true /\
  (Binary64.makerProportion 100 =? 0.09999999999999998)%float = true /\
  (Binary64.makerProportion 100 <? 0.1)%float = true.
Proof. repeat split; vm_compute; reflexivity. Qed.

(** * Further properties of the aggregation *)

Lemma processFrom_firstn (k : nat) (es : list (option FeedEntry)) :
  forall r, processFrom r (firstn k es) = firstn k (processFrom r es).
Proof.
  revert es. induction k as [|k IH]; intros es r; [reflexivity|].
  destruct es as [|e es]; [reflexivity|].
  simpl. f_equal. apply IH.
Qed.

(** X1.  Each side of the result has exactly as many entries as the
    smaller of the depth and the length of the input side. *)
Theorem aggregate_side_lengths now (data : FeedData) (k : nat) :
  length (bids (aggregate now data k))
  = Nat.min k (length (nullish (feed_bids data) [])) /\
  length (asks (aggregate now data k))
  = Nat.min k (length (nullish (feed_asks data) [])).
Proof.
  unfold aggregate, processData, slice0; simpl.
  rewrite !calculatePercentages_length, !processFrom_length, !length_firstn.
  split; reflexivity.
Qed.

(** X2.  A shallower view is a prefix of a deeper one: the prices, sizes
    and totals at depth [k] are the first [k] of those at any depth
    [k' >= k]. *)
Theorem aggregate_depth_prefix now (data : FeedData) (k k' : nat)
  (Hk : (k <= k')%nat) :
  let shallow := aggregate now data k in
  let deep := aggregate now data k' in
  (map price (bids shallow) = firstn k (map price (bids deep)) /\
   map size (bids shallow) = firstn k (map size (bids deep)) /\
   map total (bids shallow) = firstn k (map total (bids deep))) /\
  (map price (asks shallow) = firstn k (map price (asks deep)) /\
   map size (asks shallow) = firstn k (map size (asks deep)) /\
   map total (asks shallow) = firstn k (map total (asks deep))).
Proof.
  assert (Hwin : forall input : option (list (option FeedEntry)),
            slice0 input k = firstn k (slice0 input k')).
  { intro input. unfold slice0. rewrite firstn_firstn.
    now replace (Nat.min k k') with k by lia. }
  cbv zeta. unfold aggregate, processData.
  cbn [bids asks].
  rewrite !calculatePercentages_price, !calculatePercentages_size,
    !calculatePercentages_total.
  rewrite (Hwin (feed_bids data)), (Hwin (feed_asks data)).
  rewrite !processFrom_firstn, !firstn_map.
  repeat split; reflexivity.
Qed.

Lemma aggregate_depth_prefix_witness :
  map total (bids (aggregate 0 exampleBook 1))
  = firstn 1 (map total (bids (aggregate 0 exampleBook 2))).
Proof.
  destruct (aggregate_depth_prefix 0 exampleBook 1 2) as [(_ & _ & H) _].
  - lia.
  - exact H.
Defined.

(** The percentage of a running total [t] under the constant [m]. *)
Lemma percentage_of_total m (l : list OrderbookEntry) :
  map percentage (calculatePercentages m l)
  = map (fun t => if gtb m 0 then (t / m) * 100 else 0) (map total l).
Proof.
  unfold calculatePercentages. rewrite !map_map. reflexivity.
Qed.

Lemma nonDecreasing_map (f : Q -> Q) (l : list Q) :
  (forall x y, x <= y -> f x <= f y) ->
  nonDecreasing l -> nonDecreasing (map f l).
Proof.
  intros Hf Hl i j [Hij Hj]. rewrite length_map in Hj.
  rewrite (nth_indep (map f l) 0 (f 0)) by (rewrite length_map; lia).
  rewrite (nth_indep (map f l) 0 (f 0)) by (rewrite length_map; lia).
  rewrite !map_nth. apply Hf. apply Hl. lia.
Qed.

Lemma percent_monotone (m x y : Q) :
  x <= y ->
  (if gtb m 0 then (x / m) * 100 else 0) <= (if gtb m 0 then (y / m) * 100 else 0).
Proof.
  intro Hxy. destruct (gtb m 0) eqn:Hm; [|lra].
  apply gtb_true in Hm.
  apply Qmult_le_compat_r; [|lra].
  unfold Qdiv. apply Qmult_le_compat_r; [exact Hxy|].
  apply Qinv_le_0_compat. lra.
Qed.

(** X3.  For non-negative sizes that add up to at most [sumBound] on each
    side, so that no running total overflows, the percentages do not
    decrease with the depth, on either side. *)
Theorem percentages_nonDecreasing now (data : FeedData) (k : nat)
  (Hb : nonNegative (nullish (feed_bids data) []))
  (Ha : nonNegative (nullish (feed_asks data) []))
  (Sb : summable (nullish (feed_bids data) []))
  (Sa : summable (nullish (feed_asks data) [])) :
  nonDecreasing (map percentage (bids (aggregate now data k))) /\
  nonDecreasing (map percentage (asks (aggregate now data k))).
Proof.
  unfold aggregate, processData, slice0; cbn [bids asks].
  rewrite !percentage_of_total.
  split; apply nonDecreasing_map;
    try (intros x y; apply percent_monotone);
    apply processFrom_nonDecreasing, nonNegative_firstn; assumption.
Qed.

Lemma percentages_nonDecreasing_witness :
  nonNegative (nullish (feed_bids exampleBook) []) /\
  nonNegative (nullish (feed_asks exampleBook) []) /\
  summable (nullish (feed_bids exampleBook) []) /\
  summable (nullish (feed_asks exampleBook) []) /\
  nonDecreasing (map percentage (asks (aggregate 0 exampleBook 3))).
Proof.
  assert (Hb : nonNegative (nullish (feed_bids exampleBook) [])).
  { repeat constructor; vm_compute; discriminate. }
  assert (Ha : nonNegative (nullish (feed_asks exampleBook) [])).
  { repeat constructor; vm_compute; discriminate. }
  assert (Sb : summable (nullish (feed_bids exampleBook) [])).
  { vm_compute. discriminate. }
  assert (Sa : summable (nullish (feed_asks exampleBook) [])).
  { vm_compute. discriminate. }
  split; [exact Hb|]. split; [exact Ha|]. split; [exact Sb|]. split; [exact Sa|].
  exact (proj2 (percentages_nonDecreasing 0 exampleBook 3 Hb Ha Sb Sa)).
Defined.

(** * Further properties of the spread *)

Lemma firstPrice_aggregate m (input : option (list (option FeedEntry))) (k : nat) :
  (1 <= k)%nat ->
  match calculatePercentages m (processData (slice0 input k)) with
  | [] => 0
  | e :: _ => price e
  end = Book.bestPrice input.
Proof.
  intro Hk. unfold Book.bestPrice, slice0, processData.
  destruct k as [|k]; [lia|].
  destruct (nullish input []) as [|e es]; reflexivity.
Qed.

(** X5.  At any depth of at least 1 the spread is read off the first
    entry of each side of the input, missing prices and empty sides
    counting as 0: it depends neither on the depth, nor on the sizes, nor
    on any deeper level.  At depth 0 both sides are empty and the spread
    is 0 with percentage 0. *)
Theorem spread_reads_best_prices now (data : FeedData) (k : nat) :
  let ask := Book.bestPrice (feed_asks data) in
  let bid := Book.bestPrice (feed_bids data) in
  ((1 <= k)%nat ->
     calculateSpread (aggregate now data k)
     = {| absolute := ask - bid;
          spread_percentage :=
            if neqb bid 0 then ((ask - bid) / bid) * 100 else 0 |}) /\
  calculateSpread (aggregate now data 0)
  = {| absolute := 0 - 0; spread_percentage := 0 |}.
Proof.
  cbv zeta. split.
  - intro Hk.
    unfold calculateSpread, getFirstAskPrice, getFirstBidPrice, aggregate.
    cbn [bids asks].
    rewrite !firstPrice_aggregate by exact Hk. reflexivity.
  - reflexivity.
Qed.

Lemma spread_reads_best_prices_witness :
  calculateSpread (aggregate 0 exampleBook 7)
  = {| absolute := 50010 - 50000;
       spread_percentage := ((50010 - 50000) / 50000) * 100 |}.
Proof.
  destruct (spread_reads_best_prices 0 exampleBook 7) as [H _].
  apply H. lia.
Defined.

(** X6.  When the first ask is above a positive first bid, the absolute
    spread and its percentage are both positive. *)
Theorem spread_positive (d : OrderbookData) (a b : OrderbookEntry)
  (restA restB : list OrderbookEntry)
  (HA : asks d = a :: restA) (HB : bids d = b :: restB)
  (Hbid : 0 < price b) (Hask : price b < price a) :
  0 < absolute (calculateSpread d) /\
  0 < spread_percentage (calculateSpread d).
Proof.
  unfold calculateSpread, getFirstAskPrice, getFirstBidPrice.
  rewrite HA, HB. cbn [absolute spread_percentage].
  assert (Hne : neqb (price b) 0 = true) by (apply neqb_true; lra).
  rewrite Hne.
  split; [lra|].
  assert (H : 0 < (price a - price b) / price b).
  { apply Qlt_shift_div_l; [exact Hbid|lra]. }
  set (q := (price a - price b) / price b) in *. lra.
Qed.

Lemma spread_positive_witness :
  0 < absolute (calculateSpread (aggregate 0 exampleBook 2)) /\
  0 < spread_percentage (calculateSpread (aggregate 0 exampleBook 2)).
Proof.
  refine (spread_positive (aggregate 0 exampleBook 2) _ _ _ _
            eq_refl eq_refl _ _); reflexivity.
Defined.

(** * Properties of the depth chart *)













Section ChartOfAggregate.
Variable now : Z.
Variable data : FeedData.
Variable k : nat.
Hypothesis Hb : nonNegative (nullish (feed_bids data) []).
Hypothesis Ha : nonNegative (nullish (feed_asks data) []).

Local Abbreviation out := (aggregate now data k).






End ChartOfAggregate.





(** * The two revisions of the component *)

Lemma legacy_processFrom (es : list OrderbookEntry) :
  forall r, processFrom r (map asFeedEntry es) = LegacyBook.processFrom r es.
Proof.
  induction es as [|e es IH]; intro r; simpl; [reflexivity|].
  f_equal. apply IH.
Qed.

(** X9.  On a book whose entries carry all their fields, the current
    aggregation returns the bids and asks of the earlier revision, the
    one without default filling, and the same timestamp unless that is
    0. *)
Theorem aggregate_agrees_with_legacy now (data : OrderbookData) (k : nat) :
  bids (aggregate now (asFeed data) k) = bids (LegacyBook.aggregate data k) /\
  asks (aggregate now (asFeed data) k) = asks (LegacyBook.aggregate data k) /\
  (timestamp data <> 0%Z ->
   aggregate now (asFeed data) k = LegacyBook.aggregate data k).
Proof.
  assert (Hside : forall l : list OrderbookEntry,
            processData (slice0 (Some (map asFeedEntry l)) k)
            = LegacyBook.processData (firstn k l)).
  { intro l. unfold slice0, processData, LegacyBook.processData.
    simpl nullish. rewrite firstn_map. apply legacy_processFrom. }
  unfold aggregate, LegacyBook.aggregate, asFeed.
  cbn [bids asks timestamp feed_bids feed_asks feed_timestamp].
  rewrite !Hside.
  split; [reflexivity|]. split; [reflexivity|].
  intro Hts. unfold orNow.
  destruct (Z.eqb_spec (timestamp data) 0) as [E|E]; [contradiction|].
  reflexivity.
Qed.

Lemma aggregate_agrees_with_legacy_witness :
  aggregate 7 (asFeed (aggregate 0 exampleBook 3)) 2
  = LegacyBook.aggregate (aggregate 0 exampleBook 3) 2.
Proof.
  apply (proj2 (proj2 (aggregate_agrees_with_legacy 7
                         (aggregate 0 exampleBook 3) 2))).
  discriminate.
Defined.

(** X10.  The spread indicator of the earlier revision prints the
    placeholder for both numbers when a side is empty, and for the
    percentage when a first price is 0; when both first prices are
    non-zero it prints the two numbers of the current indicator. *)
Theorem legacy_indicator (d : OrderbookData) :
  (asks d = [] \/ bids d = [] ->
     Legacy.spreadIndicator d = (Text "--", Text "--")) /\
  (forall a b restA restB, asks d = a :: restA -> bids d = b :: restB ->
     (price a == 0 \/ price b == 0 ->
        Legacy.spreadIndicator d = (Fixed 2 (price a - price b), Text "--")) /\
     (~ price a == 0 -> ~ price b == 0 ->
        Legacy.spreadIndicator d = Orderbook.spreadIndicator d)).
Proof.
  split; [apply legacy_spread_placeholder|].
  intros a b restA restB HA HB.
  unfold Legacy.spreadIndicator, Legacy.spreadAbsoluteCell,
    Legacy.spreadPercentCell, Orderbook.spreadIndicator, calculateSpread,
    getFirstAskPrice, getFirstBidPrice, Legacy.orNum, Legacy.truthy.
  rewrite HA, HB. cbn [hd_error absolute spread_percentage].
  split.
  - intros [H|H]; apply neqb_false in H; rewrite H;
      [reflexivity|now rewrite andb_false_r].
  - intros Hna Hnb. apply neqb_true in Hna, Hnb. rewrite Hna, Hnb.
    reflexivity.
Qed.

Lemma legacy_indicator_witness :
  Legacy.spreadIndicator (aggregate 0 exampleBook 2)
  = Orderbook.spreadIndicator (aggregate 0 exampleBook 2).
Proof.
  destruct (legacy_indicator (aggregate 0 exampleBook 2)) as [_ H].
  destruct (H _ _ _ _ eq_refl eq_refl) as [_ Hboth].
  apply Hboth; vm_compute; discriminate.
Defined.

(** * Further properties of the form *)

(** X11.  [handleSubmit] passes parameters on only when they are valid,
    and then they are the form's: the order size is the parsed text and is
    positive, the volatility lies in [0,100], the tier is not empty and
    the message is cleared.  When nothing is passed on, a message is
    left. *)
Theorem handleSubmit_sound (parseFloat : string -> option Q)
  (form : ParameterControls.State) :
  (forall p, snd (ParameterControls.handleSubmit parseFloat form) = Some p ->
     parseFloat (ParameterControls.st_orderSize form) = Some (orderSize p) /\
     0 < orderSize p /\
     volatility p = ParameterControls.st_volatility form /\
     0 <= volatility p <= 100 /\
     feeTier p = ParameterControls.st_feeTier form /\
     feeTier p <> EmptyString /\
     ParameterControls.st_error
       (fst (ParameterControls.handleSubmit parseFloat form)) = EmptyString) /\
  (snd (ParameterControls.handleSubmit parseFloat form) = None ->
     ParameterControls.st_error
       (fst (ParameterControls.handleSubmit parseFloat form)) <> EmptyString).
Proof.
  unfold ParameterControls.handleSubmit.
  cbn [ParameterControls.setError ParameterControls.st_orderSize
       ParameterControls.st_volatility ParameterControls.st_feeTier].
  destruct (parseFloat (ParameterControls.st_orderSize form)) as [x|];
    [|split; simpl; [discriminate|discriminate]].
  destruct (leb x 0) eqn:Hx; [split; simpl; discriminate|].
  destruct (ltb (ParameterControls.st_volatility form) 0
            || gtb (ParameterControls.st_volatility form) 100) eqn:Hv;
    [split; simpl; discriminate|].
  destruct (ParameterControls.falsy (ParameterControls.st_feeTier form)) eqn:Ht;
    [split; simpl; discriminate|].
  apply leb_false in Hx. apply orb_false_iff in Hv. destruct Hv as [Hv0 Hv1].
  apply ltb_false in Hv0. apply gtb_false in Hv1.
  split; [|simpl; discriminate].
  intros p [= <-]. simpl.
  repeat split; auto.
  intro E. rewrite E in Ht. discriminate.
Qed.

Lemma handleSubmit_sound_witness :
  0 < orderSize standardOrder /\ 0 <= volatility standardOrder <= 100.
Proof.
  destruct (handleSubmit_sound ParameterControls.parseDecimal
              ParameterControls.initialState) as [H _].
  destruct (H standardOrder eq_refl) as (_ & Hpos & _ & Hv & _).
  split; assumption.
Defined.

(** X12.  [handleSubmit] only writes the message: the three inputs of
    the form are left as they were, and a second click on the resulting
    form gives the same form and the same parameters. *)
Theorem handleSubmit_stable (parseFloat : string -> option Q)
  (form : ParameterControls.State) :
  let form' := fst (ParameterControls.handleSubmit parseFloat form) in
  ParameterControls.st_orderSize form' = ParameterControls.st_orderSize form /\
  ParameterControls.st_volatility form' = ParameterControls.st_volatility form /\
  ParameterControls.st_feeTier form' = ParameterControls.st_feeTier form /\
  ParameterControls.handleSubmit parseFloat form'
  = ParameterControls.handleSubmit parseFloat form.
Proof.
  cbv zeta. unfold ParameterControls.handleSubmit.
  cbn [ParameterControls.setError ParameterControls.st_orderSize
       ParameterControls.st_volatility ParameterControls.st_feeTier].
  destruct (parseFloat (ParameterControls.st_orderSize form)) as [x|] eqn:Hp.
  - destruct (leb x 0) eqn:Hx;
      [|destruct (ltb (ParameterControls.st_volatility form) 0
                  || gtb (ParameterControls.st_volatility form) 100) eqn:Hv;
        [|destruct (ParameterControls.falsy (ParameterControls.st_feeTier form))
            eqn:Ht]];
      cbn [fst ParameterControls.setError ParameterControls.st_orderSize
           ParameterControls.st_volatility ParameterControls.st_feeTier];
      rewrite Hp, ?Hx, ?Hv, ?Ht; repeat split; reflexivity.
  - cbn [fst ParameterControls.setError ParameterControls.st_orderSize].
    rewrite Hp. repeat split; reflexivity.
Qed.

(** * Further properties of the cost model *)

Lemma feeRate_range (p : SimulationParameters) :
  0.0002 <= feeRate p <= 0.001.
Proof.
  unfold feeRate.
  destruct (String.eqb (feeTier p) "vip"); [split; discriminate|].
  destruct (String.eqb (feeTier p) "standard"); [split; discriminate|].
  destruct (String.eqb (feeTier p) "basic"); split; discriminate.
Qed.

(** The parameters with the volatility at the top of its range. *)
Lemma cost_bounds (p : SimulationParameters) :
  0 < orderSize p -> 0 <= volatility p <= 100 ->
  let top := {| orderSize := orderSize p; volatility := 100;
                feeTier := feeTier p |} in
  0 <= slippage p <= slippage top /\
  0 <= marketImpact p <= marketImpact top /\
  slippage p <= marketImpact p /\
  0.0002 * orderSize p <= fees p <= 0.001 * orderSize p /\
  0 <= fees p /\
  0 <= takerProportion p <= 0.9 /\
  0 < makerProportion p <= 1.
Proof.
  intros Hs [Hv0 Hv1]. cbv zeta.
  unfold slippage, marketImpact, fees, makerProportion, takerProportion.
  cbn [orderSize volatility].
  assert (Hsv0 : 0 <= orderSize p * volatility p)
    by (apply Qmult_le_0_compat; lra).
  assert (Hsv1 : orderSize p * volatility p <= orderSize p * 100)
    by (apply Qmult_le_l; assumption).
  assert (E1 : forall x, x / 10000 == x * (1 # 10000)) by (intro; field).
  assert (E2 : forall x, x / 5000 == x * (1 # 5000)) by (intro; field).
  assert (E5 : volatility p / 100 == volatility p * (1 # 100)) by field.
  destruct (feeRate_range p) as [Hr0 Hr1].
  assert (Hf0 : orderSize p * 0.0002 <= orderSize p * feeRate p)
    by (apply Qmult_le_l; assumption).
  assert (Hf1 : orderSize p * feeRate p <= orderSize p * 0.001)
    by (apply Qmult_le_l; assumption).
  assert (Ht0 : 0 <= Qmin 0.9 (volatility p / 100)).
  { apply Q.min_glb; [discriminate|]. rewrite E5. lra. }
  pose proof (Q.le_min_l 0.9 (volatility p / 100)) as Ht1.
  rewrite !E1, !E2.
  set (sv := orderSize p * volatility p) in *.
  set (fee := orderSize p * feeRate p) in *.
  set (t := Qmin 0.9 (volatility p / 100)) in *.
  repeat split; lra.
Qed.

(** X13.  For a positive order size and a volatility in [0,100]: slippage
    and market impact are non-negative, the slippage is at most the
    impact, and each is at most its value at volatility 100; the fee lies
    between 0.0002 and 0.001 times the size whatever the tier text; the
    taker share lies between 0 and 0.9 and the maker share is positive and
    at most 1. *)
Theorem cost_terms_bounded (p : SimulationParameters)
  (Hsize : 0 < orderSize p) (Hvol : 0 <= volatility p <= 100) :
  let top := {| orderSize := orderSize p; volatility := 100;
                feeTier := feeTier p |} in
  0 <= slippage p <= slippage top /\
  0 <= marketImpact p <= marketImpact top /\
  slippage p <= marketImpact p /\
  0.0002 * orderSize p <= fees p <= 0.001 * orderSize p /\
  0 <= takerProportion p <= 0.9 /\
  0 < makerProportion p <= 1.
Proof.
  destruct (cost_bounds p Hsize Hvol) as (H1 & H2 & H3 & H4 & _ & H5 & H6).
  cbv zeta.
  split; [exact H1|]. split; [exact H2|]. split; [exact H3|].
  split; [exact H4|]. split; [exact H5|exact H6].
Qed.

Lemma cost_terms_bounded_witness :
  0 <= slippage standardOrder
  <= slippage {| orderSize := 1; volatility := 100; feeTier := "standard" |} /\
  0 < makerProportion standardOrder <= 1.
Proof.
  destruct (cost_terms_bounded standardOrder) as (H1 & _ & _ & _ & _ & H6).
  - reflexivity.
  - split; discriminate.
  - split; [exact H1|exact H6].
Defined.

Lemma handleSubmit_inversion (parseFloat : string -> option Q)
  (form : ParameterControls.State) :
  (exists p,
     ParameterControls.handleSubmit parseFloat form
     = (ParameterControls.setError form EmptyString, Some p) /\
     0 < orderSize p /\ 0 <= volatility p <= 100)
  \/ (exists msg,
        ParameterControls.handleSubmit parseFloat form
        = (ParameterControls.setError form msg, None) /\ msg <> EmptyString).
Proof.
  unfold ParameterControls.handleSubmit.
  cbn [ParameterControls.setError ParameterControls.st_orderSize
       ParameterControls.st_volatility ParameterControls.st_feeTier].
  destruct (parseFloat (ParameterControls.st_orderSize form)) as [x|];
    [|right; eexists; split; [reflexivity|discriminate]].
  destruct (leb x 0) eqn:Hx;
    [right; eexists; split; [reflexivity|discriminate]|].
  destruct (ltb (ParameterControls.st_volatility form) 0
            || gtb (ParameterControls.st_volatility form) 100) eqn:Hv;
    [right; eexists; split; [reflexivity|discriminate]|].
  destruct (ParameterControls.falsy (ParameterControls.st_feeTier form));
    [right; eexists; split; [reflexivity|discriminate]|].
  left. eexists. split; [reflexivity|]. simpl.
  apply leb_false in Hx. apply orb_false_iff in Hv. destruct Hv as [Hv0 Hv1].
  apply ltb_false in Hv0. apply gtb_false in Hv1. auto.
Qed.

(** X14.  One click on the form either leaves a message and the page
    state untouched, or clears the message and stores the estimate of
    parameters with a positive size and a volatility in [0,100]: every
    stored cost term is then non-negative and the two shares lie between
    0 and 1. *)
Theorem submit_outcome (parseFloat : string -> option Q) (env : Env)
  (form : ParameterControls.State) (st : Dashboard.State) :
  let out := submit parseFloat env form st in
  (ParameterControls.st_error (fst out) <> EmptyString /\ snd out = st)
  \/ (ParameterControls.st_error (fst out) = EmptyString /\
      exists p,
        snd out = handleSimulation env p st /\
        getField "slippage" (simulationResults (snd out))
          = Some (JNum (slippage p)) /\
        getField "fees" (simulationResults (snd out)) = Some (JNum (fees p)) /\
        getField "marketImpact" (simulationResults (snd out))
          = Some (JNum (marketImpact p)) /\
        0 <= slippage p /\ 0 <= fees p /\ 0 <= marketImpact p /\
        0 <= takerProportion p <= 1 /\ 0 <= makerProportion p <= 1).
Proof.
  cbv zeta. unfold submit.
  destruct (handleSubmit_inversion parseFloat form)
    as [(p & -> & Hs & Hv)|(msg & -> & Hmsg)].
  - right. split; [reflexivity|]. exists p.
    destruct (cost_bounds p Hs Hv)
      as ([Hsl _] & [Hmi _] & _ & _ & Hfee & [Ht0 Ht1] & [Hm0 Hm1]).
    cbn [snd].
    split; [reflexivity|]. split; [reflexivity|]. split; [reflexivity|].
    split; [reflexivity|]. split; [exact Hsl|].
    split; [exact Hfee|]. split; [exact Hmi|]. split; split; lra.
  - left. split; [exact Hmsg|reflexivity].
Qed.

(** X15.  The taker share follows the volatility up to 90 and stays at
    0.9 from there on: for a volatility of at most 90 it is
    [volatility / 100], for a volatility of at least 90 it is 0.9. *)
Theorem taker_saturates (p : SimulationParameters) :
  (volatility p <= 90 -> takerProportion p == volatility p / 100) /\
  (90 <= volatility p -> takerProportion p == 0.9).
Proof.
  unfold takerProportion.
  assert (E : volatility p / 100 == volatility p * (1 # 100)) by field.
  split; intro H.
  - apply Q.min_r. rewrite E. lra.
  - apply Q.min_l. rewrite E. lra.
Qed.

Lemma taker_saturates_witness :
  takerProportion standardOrder == volatility standardOrder / 100 /\
  takerProportion {| orderSize := 1; volatility := 95; feeTier := "vip" |}
  == 0.9.
Proof.
  split.
  - apply (proj1 (taker_saturates standardOrder)). discriminate.
  - apply (proj2 (taker_saturates
                    {| orderSize := 1; volatility := 95; feeTier := "vip" |})).
    discriminate.
Defined.

(** X16.  The processing and interface latencies of a result are drawn,
    not measured: for draws of [Math.random] in [0,1) the first lies in
    [5,15) and the second in [3,8), whatever the parameters; the
    end-to-end latency is the difference of the two clock readings,
    non-negative when the clock does not run backwards. *)
Theorem timings_ranges (env : Env) (p : SimulationParameters)
  (H1 : 0 <= random1 env < 1) (H2 : 0 <= random2 env < 1)
  (Hclock : startTime env <= endTime env) :
  exists processing ui total,
    getField "performanceMetrics" (results env p)
    = Some (JObj [ ("processingLatency", JNum processing);
                   ("uiUpdateLatency", JNum ui);
                   ("endToEndLatency", JNum total) ]) /\
    5 <= processing < 15 /\ 3 <= ui < 8 /\
    total = endTime env - startTime env /\ 0 <= total.
Proof.
  exists (processingTime env), (uiUpdateTime env), (totalTime env).
  split; [reflexivity|].
  unfold processingTime, uiUpdateTime, totalTime.
  repeat split; lra.
Qed.

Lemma timings_ranges_witness :
  exists processing ui total,
    getField "performanceMetrics" (results exampleEnv standardOrder)
    = Some (JObj [ ("processingLatency", JNum processing);
                   ("uiUpdateLatency", JNum ui);
                   ("endToEndLatency", JNum total) ]) /\
    5 <= processing < 15 /\ 3 <= ui < 8 /\
    total = endTime exampleEnv - startTime exampleEnv /\ 0 <= total.
Proof.
  apply timings_ranges.
  - split; [discriminate|reflexivity].
  - split; [discriminate|reflexivity].
  - discriminate.
Defined.

(** * The earlier page: merging the reply of the backend *)

Lemma lookup_setProp_same (name : string) (v : JSValue)
  (fields : list (string * JSValue)) :
  lookup name (LegacyPage.setProp name v fields) = Some v.
Proof.
  induction fields as [|[k w] rest IH]; simpl.
  - now rewrite String.eqb_refl.
  - destruct (String.eqb k name) eqn:E; simpl; rewrite E; [reflexivity|exact IH].
Qed.

Lemma lookup_setProp_other (name other : string) (v : JSValue)
  (fields : list (string * JSValue)) :
  other <> name ->
  lookup other (LegacyPage.setProp name v fields) = lookup other fields.
Proof.
  intro Hne.
  assert (Hno : String.eqb name other = false).
  { apply String.eqb_neq. congruence. }
  induction fields as [|[k w] rest IH]; simpl.
  - now rewrite Hno.
  - destruct (String.eqb k name) eqn:E; simpl.
    + apply String.eqb_eq in E. subst k. now rewrite Hno.
    + destruct (String.eqb k other); [reflexivity|exact IH].
Qed.

Lemma lookup_spread (name : string) (v : JSValue) :
  lookup name (LegacyPage.spread (Some v)) = getField name v.
Proof.
  destruct v; reflexivity.
Qed.

(** X17.  When the backend replies, the earlier page stores the reply
    with one change: every property other than [performanceMetrics] is the
    reply's, inside [performanceMetrics] every property other than
    [endToEndLatency] is the reply's, and [endToEndLatency] is the time
    measured by the page, whatever the reply said.  When the request
    fails, the mock data is stored.  Either way [isLoading] ends false. *)
Theorem legacy_handleSimulation_merge (env : LegacyPage.Env)
  (st : LegacyPage.State) :
  let st' := LegacyPage.handleSimulation env st in
  let r := LegacyPage.simulationResults st' in
  (forall results, LegacyPage.reply env = Some results ->
     (forall name, name <> "performanceMetrics" ->
        getField name r = getField name results) /\
     LegacyPage.getField2 "performanceMetrics" "endToEndLatency" r
     = Some (JNum (LegacyPage.endTime env - LegacyPage.startTime env)) /\
     (forall name, name <> "endToEndLatency" ->
        LegacyPage.getField2 "performanceMetrics" name r
        = LegacyPage.getField2 "performanceMetrics" name results)) /\
  (LegacyPage.reply env = None -> r = LegacyPage.mockResults) /\
  LegacyPage.isLoading st' = false.
Proof.
  cbv zeta. unfold LegacyPage.handleSimulation.
  split; [|split].
  - intros results Hreply. rewrite Hreply.
    cbn [LegacyPage.simulationResults].
    unfold LegacyPage.withEndToEnd, LegacyPage.getField2.
    cbn [getField].
    split; [|split].
    + intros name Hne.
      rewrite lookup_setProp_other by exact Hne. apply lookup_spread.
    + rewrite lookup_setProp_same. cbn [getField].
      apply lookup_setProp_same.
    + intros name Hne.
      rewrite lookup_setProp_same. cbn [getField].
      rewrite lookup_setProp_other by exact Hne.
      destruct (getField "performanceMetrics" results) as [[x|fields]|];
        reflexivity.
  - intros ->. reflexivity.
  - destruct (LegacyPage.reply env); reflexivity.
Qed.

Lemma legacy_handleSimulation_merge_witness :
  LegacyPage.getField2 "performanceMetrics" "endToEndLatency"
    (LegacyPage.simulationResults
       (LegacyPage.handleSimulation
          (LegacyPage.mkEnv 1000 (Some LegacyPage.mockResults) 1040)
          (LegacyPage.mkState LegacyPage.mockResults true)))
  = Some (JNum (1040 - 1000)).
Proof.
  destruct (legacy_handleSimulation_merge
              (LegacyPage.mkEnv 1000 (Some LegacyPage.mockResults) 1040)
              (LegacyPage.mkState LegacyPage.mockResults true))
    as (H & _ & _).
  destruct (H LegacyPage.mockResults eq_refl) as (_ & Hend & _).
  exact Hend.
Defined.

(** * The metrics panel *)

(** X18.  The page hands its numbers to the panel inside one object named
    [metrics], and the panel reads only properties of its own: whenever
    the page renders, the panel prints its defaults (5, 0.1 and 12 per
    cent, shares 75 and 25 per cent, 12, 8 and 45 ms), whatever the stored
    results are; this is so in the initial state and after every
    simulation. *)
Theorem panel_shows_defaults (st : Dashboard.State) :
  let defaults :=
    {| Metrics.slippageCard := Metrics.ToFixed 3 (Some (0.05 * 100));
       Metrics.feesCard := Metrics.ToFixed 3 (Some (0.001 * 100));
       Metrics.marketImpactCard := Metrics.ToFixed 3 (Some (0.12 * 100));
       Metrics.makerShare := Metrics.ToFixed 1 (Some (0.75 * 100));
       Metrics.takerShare := Metrics.ToFixed 1 (Some ((1 - 0.75) * 100));
       Metrics.processingBadge := Metrics.Raw (JNum 12);
       Metrics.uiUpdateBadge := Metrics.Raw (JNum 8);
       Metrics.endToEndBadge := Metrics.Raw (JNum 45) |} in
  (forall panel, Metrics.renderedPanel st = Some panel -> panel = defaults) /\
  Metrics.renderedPanel Dashboard.initialState = Some defaults /\
  (forall env p, Metrics.renderedPanel (handleSimulation env p st)
                 = Some defaults).
Proof.
  cbv zeta. split; [|split].
  - intro panel. unfold Metrics.renderedPanel, Metrics.metricsProps.
    destruct (getField "makerTakerProportion" (simulationResults st));
      [|discriminate].
    destruct (getField "performanceMetrics" (simulationResults st));
      [|discriminate].
    intros [= <-]. reflexivity.
  - reflexivity.
  - intros env p. reflexivity.
Qed.

Lemma panel_shows_defaults_witness :
  exists panel,
    Metrics.renderedPanel
      (handleSimulation exampleEnv standardOrder Dashboard.initialState)
    = Some panel /\
    panel = Metrics.MetricsDisplay (JObj []).
Proof.
  destruct (panel_shows_defaults
              (handleSimulation exampleEnv standardOrder Dashboard.initialState))
    as [H _].
  eexists. split; [reflexivity|].
  exact (H _ eq_refl).
Defined.
